(** * Genre extraction from Last.fm tags (lastfm.py)

    A shallow embedding of [GenreExtractor] and the properties of its
    four-stage pipeline: cleaning, rule filter, genre resolution and
    deduplication.

    Python strings are sequences of Unicode code points; they are modelled
    as lists of code points ([N]).  The classification of code points below
    U+0100 is written out; what CPython's Unicode tables say beyond that
    range, and the similarity scorer of the third-party fuzzywuzzy package,
    are parameters of the development. *)

From Stdlib Require Import ZArith NArith QArith List String Ascii Bool Lia.
From stdpp Require Import base list gmap.
Import ListNotations.

(** ** Python strings *)

Definition pystr := list N.

(** Decoding of a UTF-8 byte sequence, so that the string literals of the
    source (some of which are not ASCII: forró, norteño) can be written
    as they are. [acc] is the code point being assembled and [k] the
    number of continuation bytes still expected. *)
Fixpoint utf8_decode (bs : list N) (acc : N) (k : nat) : pystr :=
  match bs with
  | [] => []
  | b :: bs' =>
      match k with
      | O =>
          if (b <? 128)%N then b :: utf8_decode bs' 0%N 0
          else if (b <? 224)%N then utf8_decode bs' (b - 192)%N 1
          else if (b <? 240)%N then utf8_decode bs' (b - 224)%N 2
          else utf8_decode bs' (b - 240)%N 3
      | S O => (acc * 64 + (b - 128))%N :: utf8_decode bs' 0%N 0
      | S k' => utf8_decode bs' (acc * 64 + (b - 128))%N k'
      end
  end.

Definition py (s : string) : pystr :=
  utf8_decode (map N_of_ascii (list_ascii_of_string s)) 0%N 0.

Definition pystr_eqb (a b : pystr) : bool := bool_decide (a = b).

(** [needle in haystack] on strings. *)
Fixpoint startswith (p s : pystr) : bool :=
  match p, s with
  | [], _ => true
  | x :: p', y :: s' => (x =? y)%N && startswith p' s'
  | _ :: _, [] => false
  end.

Fixpoint str_in (needle hay : pystr) : bool :=
  startswith needle hay ||
  match hay with
  | [] => false
  | _ :: hay' => str_in needle hay'
  end.

(** Python values that may sit in the input list: [_clean_tags] tests
    [isinstance(tag, str)]. *)
Inductive pyobj :=
| PyStr (s : pystr)
| PyInt (z : Z)
| PyNone.

(** The truth value of an [Optional[str]]: [None] and the empty string are
    false. *)
Definition truthy (o : option pystr) : bool :=
  match o with
  | Some (_ :: _) => true
  | _ => false
  end.

(** ** Code points *)

(** What CPython's Unicode database says about the code points from U+0100
    on. [ucd_lower before c after] is the lower-casing of [c] in its context
    (the context matters for the final sigma); [ucd_ilit p c] says whether the
    text character [c] matches the pattern literal [p] under
    [re.IGNORECASE]. *)
Record unicode_db := {
  ucd_isalnum : N -> bool;
  ucd_isdecimal : N -> bool;
  ucd_lower : pystr -> N -> pystr -> pystr;
  ucd_ilit : N -> N -> bool
}.

Definition in_range (lo hi c : N) : bool := ((lo <=? c) && (c <=? hi))%N.

(** [str.isspace] of one code point: the whitespace set of CPython
    ([_PyUnicode_IsWhitespace]), which [\s] and [str.strip] share. *)
Definition isspace (c : N) : bool :=
  in_range 9 13 c || in_range 28 32 c || (c =? 133)%N || (c =? 160)%N ||
  (c =? 5760)%N || in_range 8192 8202 c || (c =? 8232)%N || (c =? 8233)%N ||
  (c =? 8239)%N || (c =? 8287)%N || (c =? 12288)%N.

(** Lower-casing below U+0100: A-Z and the capital letters of Latin-1
    (U+00C0-U+00DE without the multiplication sign). *)
Definition latin1_lower (c : N) : N :=
  if in_range 65 90 c || (in_range 192 222 c && negb (c =? 215)%N)
  then (c + 32)%N else c.

(** [str.isalnum] below U+0100. *)
Definition latin1_isalnum (c : N) : bool :=
  in_range 48 57 c || in_range 65 90 c || in_range 97 122 c ||
  (c =? 170)%N || (c =? 178)%N || (c =? 179)%N || (c =? 181)%N ||
  (c =? 185)%N || (c =? 186)%N || in_range 188 190 c ||
  in_range 192 214 c || in_range 216 246 c || in_range 248 255 c.

Section Unicode.
Variable ucd : unicode_db.

Definition isalnum (c : N) : bool :=
  if (c <? 256)%N then latin1_isalnum c else ucd_isalnum ucd c.

(** [\d] of a str pattern: a decimal digit. *)
Definition isdecimal (c : N) : bool :=
  if (c <? 256)%N then in_range 48 57 c else ucd_isdecimal ucd c.

(** [\w] of a str pattern: alphanumeric or the underscore. *)
Definition isword (c : N) : bool := isalnum c || (c =? 95)%N.

(** [str.lower]. *)
Fixpoint lower_from (before : pystr) (s : pystr) : pystr :=
  match s with
  | [] => []
  | c :: s' =>
      (if (c <? 256)%N then [latin1_lower c] else ucd_lower ucd before c s')
        ++ lower_from (c :: before) s'
  end.

Definition lower (s : pystr) : pystr := lower_from [] s.

(** [str.strip]. *)
Fixpoint lstrip (s : pystr) : pystr :=
  match s with
  | c :: s' => if isspace c then lstrip s' else s
  | [] => []
  end.

Definition rstrip (s : pystr) : pystr := rev (lstrip (rev s)).

Definition strip (s : pystr) : pystr := rstrip (lstrip s).

(** A literal of a pattern against a character of the text under
    [re.IGNORECASE]. *)
Definition ilit (p c : N) : bool :=
  if (c <? 256)%N then (latin1_lower c =? latin1_lower p)%N
  else ucd_ilit ucd p c.
End Unicode.

(** ** Regular expressions

    The patterns of the source use literals, [.], [\d], the anchors [^] and
    [$] and the postfix operators [*], [?] and [{n}] on one character. *)

Inductive cclass :=
| CLit (c : N)
| CAny
| CDigit.

Inductive quant :=
| QOne
| QOpt
| QStar
| QRep (n : nat).

Inductive item :=
| IBol
| IEol
| IAtom (c : cclass) (q : quant).

Definition regex := list item.

(** *** Reading a pattern *)

Inductive pstate :=
| PNormal
| PEscape
| PCount (n : nat).

Definition set_quant (q : quant) (acc : list item) : option (list item) :=
  match acc with
  | IAtom c QOne :: acc' => Some (IAtom c q :: acc')
  | _ => None
  end.

Definition digit_of (a : ascii) : option nat :=
  let n := nat_of_ascii a in
  if (48 <=? n)%nat && (n <=? 57)%nat then Some (n - 48)%nat else None.

(** [acc] holds the items read so far, last one first. *)
Fixpoint re_parse_from (st : pstate) (acc : list item) (cs : list ascii)
  : option regex :=
  match cs with
  | [] => match st with PNormal => Some (rev acc) | _ => None end
  | a :: cs' =>
      match st with
      | PEscape =>
          if Ascii.eqb a "d"
          then re_parse_from PNormal (IAtom CDigit QOne :: acc) cs'
          else None
      | PCount n =>
          if Ascii.eqb a "}"
          then acc' ← set_quant (QRep n) acc; re_parse_from PNormal acc' cs'
          else d ← digit_of a; re_parse_from (PCount (10 * n + d)) acc cs'
      | PNormal =>
          if Ascii.eqb a "^" then re_parse_from PNormal (IBol :: acc) cs'
          else if Ascii.eqb a "$" then re_parse_from PNormal (IEol :: acc) cs'
          else if Ascii.eqb a "." then
            re_parse_from PNormal (IAtom CAny QOne :: acc) cs'
          else if Ascii.eqb a "\" then re_parse_from PEscape acc cs'
          else if Ascii.eqb a "*" then
            acc' ← set_quant QStar acc; re_parse_from PNormal acc' cs'
          else if Ascii.eqb a "?" then
            acc' ← set_quant QOpt acc; re_parse_from PNormal acc' cs'
          else if Ascii.eqb a "{" then re_parse_from (PCount 0) acc cs'
          else if Ascii.eqb a "+" || Ascii.eqb a "(" || Ascii.eqb a ")" ||
                  Ascii.eqb a "[" || Ascii.eqb a "]" || Ascii.eqb a "|" ||
                  Ascii.eqb a "}"
          then None
          else re_parse_from PNormal (IAtom (CLit (N_of_ascii a)) QOne :: acc) cs'
      end
  end.

Definition re_compile (pattern : string) : option regex :=
  re_parse_from PNormal [] (list_ascii_of_string pattern).

(** *** Matching *)

Section Regex.
Variable ucd : unicode_db.

Definition cclass_match (cl : cclass) (c : N) : bool :=
  match cl with
  | CLit p => ilit ucd p c
  | CAny => negb (c =? 10)%N
  | CDigit => isdecimal ucd c
  end.

(** [$] matches at the end of the string and before a newline that ends
    it. *)
Definition at_eol (s : pystr) : bool :=
  match s with
  | [] => true
  | [c] => (c =? 10)%N
  | _ => false
  end.

(** The repetitions try the longest run first and back off; [k] is the
    rest of the pattern, [b] tells whether the position is the start of the
    string. *)
Fixpoint star (cl : cclass) (k : bool -> pystr -> bool) (b : bool)
  (s : pystr) : bool :=
  match s with
  | c :: s' => cclass_match cl c && star cl k false s'
  | [] => false
  end || k b s.

Fixpoint rep (cl : cclass) (k : bool -> pystr -> bool) (n : nat) (b : bool)
  (s : pystr) : bool :=
  match n with
  | O => k b s
  | S n' =>
      match s with
      | c :: s' => cclass_match cl c && rep cl k n' false s'
      | [] => false
      end
  end.

(** Does the pattern match at the current position? [at_bol] tells whether
    the position is the start of the string, [s] is the text from the
    position on. *)
Fixpoint match_items (items : regex) (at_bol : bool) (s : pystr)
  {struct items} : bool :=
  match items with
  | [] => true
  | IBol :: rest => at_bol && match_items rest at_bol s
  | IEol :: rest => at_eol s && match_items rest at_bol s
  | IAtom cl q :: rest =>
      match q with
      | QOne =>
          match s with
          | c :: s' => cclass_match cl c && match_items rest false s'
          | [] => false
          end
      | QOpt =>
          match s with
          | c :: s' => cclass_match cl c && match_items rest false s'
          | [] => false
          end || match_items rest at_bol s
      | QStar => star cl (match_items rest) at_bol s
      | QRep n => rep cl (match_items rest) n at_bol s
      end
  end.

(** [re.match(pattern, string, re.IGNORECASE)] as a truth value. *)
Definition re_match (pattern : regex) (s : pystr) : bool :=
  match_items pattern true s.
End Regex.

(** ** Configuration and reference tables *)

(** The dataclass [GenreExtractionConfig]. The two float fields are only
    stored; they are kept as rationals. *)
Record GenreExtractionConfig := {
  fuzzy_threshold : Z;
  min_tag_length : Z;
  max_tag_length : Z;
  keyword_threshold : Q;
  context_weight : Q
}.

Definition default_config : GenreExtractionConfig := {|
  fuzzy_threshold := 80;
  min_tag_length := 2;
  max_tag_length := 50;
  keyword_threshold := 6 # 10;
  context_weight := 3 # 10
|}.

(** A dict literal, in insertion order (the order in which [keys()] and
    [items()] iterate). *)
Definition pydict (V : Type) := list (pystr * V).

Fixpoint dict_get {V} (d : pydict V) (k : pystr) : option V :=
  match d with
  | [] => None
  | (k', v) :: d' => if pystr_eqb k' k then Some v else dict_get d' k
  end.

Definition dict_keys {V} (d : pydict V) : list pystr := map fst d.
Definition dict_values {V} (d : pydict V) : list V := map snd d.

(** A genre that is its own canonical form. *)
Definition same (s : string) : pystr * pystr := (py s, py s).

Definition _load_genre_taxonomy : pydict pystr := [
  same "rock"; same "pop"; same "hip-hop";
  (py "hiphop", py "hip-hop"); (py "hip hop", py "hip-hop");
  same "electronic"; same "jazz"; same "blues"; same "country";
  same "classical"; same "reggae"; same "metal"; same "punk"; same "folk";
  same "indie"; same "alternative"; same "rnb"; same "soul"; same "funk";
  same "house"; same "techno"; same "dubstep"; same "ambient";
  same "experimental"; same "trance"; same "drum and bass";
  (py "dnb", py "drum and bass");
  same "breakbeat"; same "garage"; same "trap"; same "drill"; same "grime";
  same "synthwave"; same "vaporwave"; same "chillwave"; same "darkwave";
  same "new wave"; same "post-punk"; same "post-rock"; same "shoegaze";
  same "dream pop"; same "britpop"; same "grunge"; same "emo";
  same "screamo"; same "hardcore"; same "metalcore"; same "deathcore";
  same "black metal"; same "death metal"; same "thrash metal";
  same "heavy metal"; same "power metal"; same "progressive metal";
  same "doom metal"; same "sludge metal"; same "stoner rock";
  same "psychedelic rock"; same "garage rock"; same "surf rock";
  same "rockabilly"; same "skiffle"; same "bebop"; same "swing";
  same "big band"; same "smooth jazz"; same "fusion"; same "free jazz";
  same "cool jazz"; same "hard bop"; same "delta blues";
  same "chicago blues"; same "electric blues"; same "rhythm and blues";
  same "motown"; same "neo-soul"; same "northern soul";
  same "southern soul"; same "gospel"; same "spiritual"; same "bluegrass";
  same "americana"; same "alt-country"; same "outlaw country";
  same "honky-tonk"; same "western swing"; same "dancehall";
  same "roots reggae"; same "dub reggae"; same "ska punk"; same "two-tone";
  same "calypso"; same "soca"; same "salsa"; same "merengue";
  same "bachata"; same "cumbia"; same "reggaeton"; same "latin pop";
  same "bossa nova"; same "samba"; same "forró"; same "mpb";
  same "tropicália"; same "fado"; same "flamenco"; same "tango";
  same "mariachi"; same "ranchera"; same "norteño"; same "conjunto";
  same "tejano"; same "zydeco"; same "cajun"; same "celtic";
  same "irish traditional"; same "scottish traditional"; same "klezmer";
  same "polka"; same "waltz"; same "mazurka"; same "tarantella";
  same "fandango"
].

Definition non_genre_pattern_sources : list string := [
  "^\d{2}s$"; "^\d{4}s?$"; ".*seen live.*"; ".*favorites?.*";
  ".*recommended.*"; ".*love.*"; ".*awesome.*"; ".*best.*"; ".*top.*";
  ".*favorite.*"; ".*male.*"; ".*female.*"; ".*british.*"; ".*american.*";
  ".*canadian.*"; ".*australian.*"; ".*german.*"; ".*french.*";
  ".*italian.*"; ".*chill.*"; ".*relax.*"; ".*emotional.*"; ".*romantic.*";
  ".*sad.*"; ".*happy.*"; ".*energetic.*"; ".*melancholic.*"; ".*upbeat.*";
  ".*mellow.*"; ".*nostalgic.*"; ".*party.*"; ".*dance.*"; ".*summer.*";
  ".*winter.*"; ".*night.*"; ".*morning.*"; ".*driving.*"; ".*workout.*";
  ".*study.*"; ".*background.*"; ".*instrumental.*"; ".*acoustic.*";
  ".*live.*"; ".*cover.*"; ".*remix.*"; ".*radio.*"; ".*edit.*";
  ".*version.*"; ".*mix.*"; ".*single.*"; ".*album.*"; ".*ep.*";
  ".*compilation.*"; ".*soundtrack.*"; ".*theme.*"; ".*christmas.*";
  ".*holiday.*"
]%string.

(** The patterns as [re.match] compiles them. *)
Definition _load_non_genre_patterns : list regex :=
  omap re_compile non_genre_pattern_sources.

Definition _load_genre_keywords : list pystr := map py [
  "core"; "wave"; "step"; "hop"; "house"; "techno"; "trance";
  "metal"; "rock"; "punk"; "folk"; "jazz"; "blues"; "soul";
  "funk"; "disco"; "reggae"; "ska"; "dub"; "ambient"; "drone";
  "noise"; "industrial"; "gothic"; "dark"; "black"; "death";
  "thrash"; "speed"; "power"; "prog"; "post"; "neo"; "new";
  "old"; "classic"; "modern"; "contemporary"; "traditional";
  "experimental"; "alternative"; "indie"; "underground";
  "mainstream"; "commercial"; "lo-fi"; "hi-fi"; "electronica";
  "electronic"; "digital"; "analog"; "acoustic"; "electric";
  "bass"; "drum"; "beat"; "rhythm"; "tempo"; "bpm";
  "major"; "minor"; "key"; "scale"; "mode"; "harmony";
  "melody"; "vocal"; "instrumental"; "orchestral"; "symphonic";
  "chamber"; "ensemble"; "band"; "group"; "solo"; "duo";
  "trio"; "quartet"; "quintet"; "sextet"; "septet"; "octet"
]%string.

Definition _load_non_genre_keywords : list pystr := map py [
  "seen"; "live"; "concert"; "favorite"; "best"; "top"; "love";
  "awesome"; "great"; "good"; "bad"; "terrible"; "amazing";
  "perfect"; "beautiful"; "ugly"; "boring"; "exciting";
  "recommended"; "suggestion"; "playlist"; "album"; "single";
  "ep"; "compilation"; "soundtrack"; "theme"; "cover"; "remix";
  "edit"; "version"; "mix"; "radio"; "clean"; "explicit";
  "censored"; "uncensored"; "remastered"; "deluxe"; "special";
  "limited"; "edition"; "bonus"; "track"; "disc"; "cd"; "vinyl";
  "digital"; "download"; "stream"; "youtube"; "spotify";
  "apple"; "amazon"; "google"; "bandcamp"; "soundcloud";
  "male"; "female"; "vocalist"; "singer"; "musician"; "artist";
  "band"; "group"; "duo"; "trio"; "quartet"; "solo";
  "british"; "american"; "canadian"; "australian"; "german";
  "french"; "italian"; "spanish"; "japanese"; "korean";
  "chinese"; "russian"; "brazilian"; "mexican"; "indian";
  "summer"; "winter"; "spring"; "autumn"; "fall"; "christmas";
  "holiday"; "birthday"; "party"; "wedding"; "funeral";
  "morning"; "afternoon"; "evening"; "night"; "midnight";
  "driving"; "walking"; "running"; "workout"; "exercise";
  "study"; "work"; "sleep"; "relax"; "chill"; "background";
  "emotional"; "sad"; "happy"; "angry"; "depressed"; "excited";
  "romantic"; "nostalgic"; "melancholic"; "upbeat"; "mellow";
  "energetic"; "calm"; "peaceful"; "aggressive"; "violent"
]%string.

Definition family (name : string) (genres : list string)
  : pystr * list pystr := (py name, map py genres).

Definition _load_genre_families : pydict (list pystr) := [
  family "rock" ["rock"; "alternative"; "indie"; "grunge"; "punk"; "metal"];
  family "electronic"
    ["electronic"; "techno"; "house"; "trance"; "dubstep"; "ambient"];
  family "hip_hop" ["hip-hop"; "rap"; "trap"; "drill"; "boom"; "bap"];
  family "jazz" ["jazz"; "bebop"; "swing"; "fusion"; "smooth"; "free"];
  family "blues" ["blues"; "rhythm"; "delta"; "chicago"; "electric"];
  family "country" ["country"; "folk"; "bluegrass"; "americana"; "western"];
  family "classical" ["classical"; "baroque"; "romantic"; "modern"; "opera"];
  family "reggae" ["reggae"; "ska"; "dub"; "dancehall"; "roots"];
  family "pop" ["pop"; "dance"; "disco"; "synthpop"; "electropop"];
  family "r&b" ["rnb"; "soul"; "funk"; "motown"; "neo-soul"]
]%string.

(** The table inside [_normalize_genre_name]; it is only read with [get]. *)
Definition normalization_table : list (pystr * pystr) := [
  (py "hiphop", py "hip-hop");
  (py "hip hop", py "hip-hop");
  (py "r&b", py "rnb");
  (py "r and b", py "rnb");
  (py "electronic music", py "electronic");
  (py "alt rock", py "alternative rock");
  (py "alternative", py "alternative rock")
].

Definition normalizations : gmap pystr pystr :=
  list_to_map normalization_table.

Definition musical_indicators : list pystr :=
  map py ["music"; "sound"; "beat"; "rhythm"; "style"; "wave"]%string.

(** ** The extractor *)

Record GenreExtractor := {
  config : GenreExtractionConfig;
  known_genres : pydict pystr;
  genre_keywords : list pystr;
  non_genre_patterns : list regex;
  non_genre_keywords : list pystr;
  genre_families : pydict (list pystr)
}.

Definition __init__ (cfg : option GenreExtractionConfig) : GenreExtractor := {|
  config := default default_config cfg;
  known_genres := _load_genre_taxonomy;
  genre_keywords := _load_genre_keywords;
  non_genre_patterns := _load_non_genre_patterns;
  non_genre_keywords := _load_non_genre_keywords;
  genre_families := _load_genre_families
|}.

Section Extractor.
Variable ucd : unicode_db.

(** The score that [process.extractOne(tag, keys, scorer=fuzz.ratio)]
    computes for one choice: fuzzywuzzy's default processor on the query
    and on the choice, then [fuzz.ratio]. fuzzywuzzy is a third-party
    package. *)
Variable similarity : pystr -> pystr -> Z.

Variable self : GenreExtractor.

(** *** Stage 1: cleaning *)

(** [re.sub(r'[^\w\s-]', '', tag)]. *)
Definition remove_special (tag : pystr) : pystr :=
  List.filter (fun c => isword ucd c || isspace c || (c =? 45)%N) tag.

(** [re.sub(r'\s+', ' ', tag)]: every maximal run of whitespace becomes one
    space. [in_run] says that the previous character was whitespace. *)
Fixpoint collapse_from (in_run : bool) (tag : pystr) : pystr :=
  match tag with
  | [] => []
  | c :: tag' =>
      if isspace c
      then (if in_run then [] else [32%N]) ++ collapse_from true tag'
      else c :: collapse_from false tag'
  end.

Definition normalize_whitespace (tag : pystr) : pystr :=
  collapse_from false tag.

Definition clean_tag (tag : pystr) : pystr :=
  let tag := strip (lower ucd tag) in
  let tag := remove_special tag in
  normalize_whitespace tag.

Definition len (s : pystr) : Z := Z.of_nat (length s).

Definition length_ok (tag : pystr) : bool :=
  (min_tag_length (config self) <=? len tag)%Z &&
  (len tag <=? max_tag_length (config self))%Z.

Definition _clean_tags (tags : list pyobj) : list pystr :=
  fold_left
    (fun cleaned tag =>
       match tag with
       | PyStr tag =>
           let tag := clean_tag tag in
           if length_ok tag then cleaned ++ [tag] else cleaned
       | _ => cleaned
       end)
    tags [].

(** *** Stage 2: rule filter *)

(** The inner loop of [_filter_non_genres]: it stops at the first pattern
    that matches. *)
Fixpoint is_non_genre (patterns : list regex) (tag : pystr) : bool :=
  match patterns with
  | [] => false
  | pattern :: patterns' =>
      if re_match ucd pattern tag then true
      else is_non_genre patterns' tag
  end.

Definition _filter_non_genres (tags : list pystr) : list pystr :=
  fold_left
    (fun filtered tag =>
       if negb (is_non_genre (non_genre_patterns self) tag)
       then filtered ++ [tag] else filtered)
    tags [].

(** *** Stage 3: resolution *)

(** [process.extractWithoutOrder] with the default [score_cutoff=0]. *)
Definition extractWithoutOrder (query : pystr) (choices : list pystr)
  : list (pystr * Z) :=
  List.filter (fun m => (0 <=? snd m)%Z)
    (map (fun choice => (choice, similarity query choice)) choices).

(** [max(..., key=lambda i: i[1])]: the first of the maximal elements. *)
Fixpoint max_by_score (best : pystr * Z) (l : list (pystr * Z))
  : pystr * Z :=
  match l with
  | [] => best
  | m :: l' => max_by_score (if (snd best <? snd m)%Z then m else best) l'
  end.

Definition extractOne (query : pystr) (choices : list pystr)
  : option (pystr * Z) :=
  match extractWithoutOrder query choices with
  | [] => None
  | m :: l => Some (max_by_score m l)
  end.

Definition _fuzzy_match_genre (tag : pystr) : option pystr :=
  match extractOne tag (dict_keys (known_genres self)) with
  | Some m =>
      if (fuzzy_threshold (config self) <=? snd m)%Z
      then dict_get (known_genres self) (fst m)
      else None
  | None => None
  end.

Definition _is_genre_by_keywords (tag : pystr) : bool :=
  existsb
    (fun keyword =>
       str_in keyword (lower ucd tag) &&
       negb (existsb (fun ng_keyword => str_in ng_keyword (lower ucd tag))
               (non_genre_keywords self)))
    (genre_keywords self).

Definition _is_genre_by_context (tag : pystr) (all_tags : list pystr)
  : bool :=
  let known_genre_count :=
    length (List.filter
              (fun t => bool_decide (is_Some (dict_get (known_genres self) t)))
              all_tags) in
  if (2 <=? known_genre_count)%nat then
    if existsb (fun indicator => str_in indicator (lower ucd tag))
         musical_indicators
    then true
    else
      existsb
        (fun fam => existsb (fun genre => str_in genre (lower ucd tag))
                      (snd fam))
        (genre_families self)
  else false.

Definition _extract_genre_from_tag (tag : pystr) (all_tags : list pystr)
  : option pystr :=
  match dict_get (known_genres self) tag with
  | Some genre => Some genre
  | None =>
      let fuzzy_match := _fuzzy_match_genre tag in
      if truthy fuzzy_match then fuzzy_match
      else if _is_genre_by_keywords tag then Some tag
      else if _is_genre_by_context tag all_tags then Some tag
      else None
  end.

(** *** Stage 4: deduplication *)

Definition _normalize_genre_name (genre : pystr) : pystr :=
  default genre (normalizations !! lower ucd genre).

Definition _deduplicate_and_normalize (genres : list pystr) : list pystr :=
  snd
    (fold_left
       (fun (st : gset pystr * list pystr) genre =>
          let '(seen, unique_genres) := st in
          let normalized := _normalize_genre_name genre in
          if bool_decide (normalized ∈ seen) then st
          else ({[normalized]} ∪ seen, unique_genres ++ [normalized]))
       genres (∅, [])).

(** *** The pipeline *)

Definition resolve_all (filtered_tags : list pystr) : list pystr :=
  fold_left
    (fun genres tag =>
       match _extract_genre_from_tag tag filtered_tags with
       | Some genre => if truthy (Some genre) then genres ++ [genre] else genres
       | None => genres
       end)
    filtered_tags [].

Definition extract_genres (lastfm_tags : list pyobj) : list pystr :=
  match lastfm_tags with
  | [] => []
  | _ =>
      let cleaned_tags := _clean_tags lastfm_tags in
      let filtered_tags := _filter_non_genres cleaned_tags in
      let genres := resolve_all filtered_tags in
      _deduplicate_and_normalize genres
  end.
End Extractor.

(** ** A concrete environment

    For the examples: a Unicode database that knows nothing beyond U+00FF
    (the examples stay below), and the similarity of fuzzywuzzy with
    python-Levenshtein: the processor [utils.full_process] on both strings,
    then [round(100 * 2 * M / T)] where [M] is the length of a longest common
    subsequence and [T] the sum of the lengths. *)

Definition latin1_db : unicode_db := {|
  ucd_isalnum := fun _ => false;
  ucd_isdecimal := fun _ => false;
  ucd_lower := fun _ c _ => [c];
  ucd_ilit := fun p c => (p =? c)%N
|}.

(** One row of the table of longest common subsequences: [prev] is the row
    of the previous character of the first string, [diag] and [left] the
    entries before the current column. *)
Fixpoint lcs_row (x : N) (b : pystr) (prev : list nat) (diag left : nat)
  : list nat :=
  match b, prev with
  | y :: b', up :: prev' =>
      let v := if (x =? y)%N then S diag else Nat.max up left in
      v :: lcs_row x b' prev' up v
  | _, _ => []
  end.

Definition lcs (a b : pystr) : nat :=
  List.last
    (fold_left (fun row x => lcs_row x b row 0 0) a (repeat 0 (length b))) 0.

(** Python's [round] on a non-negative quotient: halves go to the even
    neighbour. *)
Definition round_half_even (n d : Z) : Z :=
  let q := (n / d)%Z in
  let r := (n mod d)%Z in
  if (2 * r <? d)%Z then q
  else if (d <? 2 * r)%Z then (q + 1)%Z
  else if Z.even q then q else (q + 1)%Z.

Section Fuzz.
Variable ucd : unicode_db.

(** [utils.full_process]: characters that are not [\w] become spaces, then
    [lower] and [strip]. *)
Definition full_process (s : pystr) : pystr :=
  strip (lower ucd (map (fun c => if isword ucd c then c else 32%N) s)).

(** [fuzz.ratio] with its guards: equal strings score 100, an empty string
    scores 0. *)
Definition fuzz_ratio (s1 s2 : pystr) : Z :=
  if pystr_eqb s1 s2 then 100%Z
  else if bool_decide (s1 = []) || bool_decide (s2 = []) then 0%Z
  else round_half_even (100 * (2 * Z.of_nat (lcs s1 s2)))
         (Z.of_nat (length s1 + length s2)).

Definition levenshtein_similarity (query choice : pystr) : Z :=
  fuzz_ratio (full_process query) (full_process choice).
End Fuzz.

Definition lev : pystr -> pystr -> Z := levenshtein_similarity latin1_db.

Definition tags_of (l : list string) : list pyobj :=
  map (fun s => PyStr (py s)) l.

(** The tags of the usage example in [main]. *)
Definition main_tags : list pyobj := tags_of [
  "2020"; "folk"; "folklore (deluxe version)"; "alternative"; "folk pop";
  "indie folk"; "pop"; "chamber pop"; "indie"; "singer-songwriter"
]%string.

(** ** Specifications *)

(** The elements of a list in the order of their first occurrence. *)
Fixpoint first_seen (l : list pystr) : list pystr :=
  match l with
  | [] => []
  | x :: l' => x :: List.filter (fun y => negb (pystr_eqb x y)) (first_seen l')
  end.

Definition quant_ok (q : quant) (n : nat) : Prop :=
  match q with
  | QOne => n = 1%nat
  | QOpt => (n <= 1)%nat
  | QStar => True
  | QRep k => n = k
  end.

(** [matches_at ucd p b s]: the pattern [p] matches a prefix of [s], where
    [b] says whether [s] starts at the beginning of the string. Every atom
    takes a run of characters of its class, as long as its quantifier allows;
    what follows the last item is not looked at. *)
Inductive matches_at (ucd : unicode_db) : regex -> bool -> pystr -> Prop :=
| matches_nil b s :
    matches_at ucd [] b s
| matches_bol rest s :
    matches_at ucd rest true s ->
    matches_at ucd (IBol :: rest) true s
| matches_eol rest b s :
    s = [] \/ s = [10%N] ->
    matches_at ucd rest b s ->
    matches_at ucd (IEol :: rest) b s
| matches_atom cl q rest b run s :
    Forall (fun c => cclass_match ucd cl c = true) run ->
    quant_ok q (length run) ->
    matches_at ucd rest (b && bool_decide (run = [])) s ->
    matches_at ucd (IAtom cl q :: rest) b (run ++ s).

(** What stage 3 keeps of one tag: the genre it resolves to, when that is
    neither [None] nor empty. *)
Definition resolved (ucd : unicode_db) (similarity : pystr -> pystr -> Z)
  (self : GenreExtractor) (all_tags : list pystr) (tag : pystr)
  : option pystr :=
  match _extract_genre_from_tag ucd similarity self tag all_tags with
  | Some (c :: g) => Some (c :: g)
  | _ => None
  end.

(** The four tags of the usage example that are not taxonomy keys, and what
    is assumed of the similarity scorer on them: no key comes within the
    default threshold. *)
Definition main_loose_tags : list pystr :=
  map py ["folk pop"; "indie folk"; "chamber pop"; "singer-songwriter"]%string.

Definition scores_below_threshold (similarity : pystr -> pystr -> Z) : bool :=
  forallb
    (fun t =>
       forallb (fun k => (similarity t k <? 80)%Z)
         (dict_keys _load_genre_taxonomy))
    main_loose_tags.

(** The cleaning of one entry of the input list. *)
Definition clean_entry (ucd : unicode_db) (self : GenreExtractor)
  (tag : pyobj) : option pystr :=
  match tag with
  | PyStr s =>
      let t := normalize_whitespace
                 (remove_special ucd (strip (lower ucd s))) in
      if bool_decide (min_tag_length (config self) <= len t <=
                      max_tag_length (config self))%Z
      then Some t else None
  | _ => None
  end.

(** The normalizer as the specification words it: lower-case, drop what is
    not alphanumeric, whitespace or hyphen, collapse the whitespace, trim. *)
Definition described_clean_tag (ucd : unicode_db) (tag : pystr) : pystr :=
  strip
    (normalize_whitespace
       (List.filter (fun c => isalnum ucd c || isspace c || (c =? 45)%N)
          (lower ucd tag))).

Definition described_clean_entry (ucd : unicode_db) (self : GenreExtractor)
  (tag : pyobj) : option pystr :=
  match tag with
  | PyStr s =>
      let t := described_clean_tag ucd s in
      if bool_decide (min_tag_length (config self) <= len t <=
                      max_tag_length (config self))%Z
      then Some t else None
  | _ => None
  end.

(** Two extractors that differ at most in the inert fields of their
    configuration. *)
Definition same_but_inert (a b : GenreExtractor) : Prop :=
  fuzzy_threshold (config a) = fuzzy_threshold (config b) /\
  min_tag_length (config a) = min_tag_length (config b) /\
  max_tag_length (config a) = max_tag_length (config b) /\
  known_genres a = known_genres b /\
  genre_keywords a = genre_keywords b /\
  non_genre_patterns a = non_genre_patterns b /\
  non_genre_keywords a = non_genre_keywords b /\
  genre_families a = genre_families b.

(** ** A classification by the shape of the tag

    [_character_based_classification] is defined by the class but called by
    no stage. *)

(** [len(tag.split())]: the number of maximal runs of characters that are
    not whitespace. [in_word] says that the previous character was one. *)
Fixpoint count_words_from (in_word : bool) (tag : pystr) : nat :=
  match tag with
  | [] => 0
  | c :: tag' =>
      if isspace c then count_words_from false tag'
      else (if in_word then 0 else 1) + count_words_from true tag'
  end.

Definition split_count (tag : pystr) : nat := count_words_from false tag.

(** [tag.count(c)] for a string of one character. *)
Definition count_char (c : N) (tag : pystr) : nat :=
  length (List.filter (fun d => (d =? c)%N) tag).

Definition _character_based_classification (tag : pystr) : bool :=
  if (20 <? len tag)%Z then false
  else if existsb (fun char => str_in char tag)
            (map py ["!"; "?"; "#"; "@"]%string)
  then false
  else
    let word_count := split_count tag in
    let hyphen_count := count_char 45%N tag in
    if (word_count <=? 2)%nat || (0 <? hyphen_count)%nat then true
    else false.

(** ** The exercise of leetcode.py *)

(** The loop of [twoSum] from index [i] on: [num] maps the values seen so far
    to the last index at which each was seen. *)
Fixpoint twoSum_from (num : gmap Z nat) (i : nat) (rest : list Z)
  (target : Z) : list nat :=
  match rest with
  | [] => []
  | x :: rest' =>
      match num !! (target - x)%Z with
      | Some j => [j; i]
      | None => twoSum_from (<[x := i]> num) (S i) rest' target
      end
  end.

Definition twoSum (nums : list Z) (target : Z) : list nat :=
  twoSum_from ∅ 0 nums target.

(** ** More specifications *)

#[global] Instance cclass_eq_dec : EqDecision cclass.
Proof. solve_decision. Defined.

#[global] Instance quant_eq_dec : EqDecision quant.
Proof. solve_decision. Defined.

#[global] Instance item_eq_dec : EqDecision item.
Proof. solve_decision. Defined.

(** The pattern [.*w.*] for a word [w]. *)
Definition contains_pattern (w : pystr) : regex :=
  IAtom CAny QStar :: map (fun c => IAtom (CLit c) QOne) w ++
  [IAtom CAny QStar].

(** The words of the patterns of the form [.*w.*]. *)
Definition non_genre_words : list pystr := map py [
  "seen live"; "favorite"; "recommended"; "love"; "awesome"; "best"; "top";
  "male"; "female"; "british"; "american"; "canadian"; "australian";
  "german"; "french"; "italian"; "chill"; "relax"; "emotional"; "romantic";
  "sad"; "happy"; "energetic"; "melancholic"; "upbeat"; "mellow";
  "nostalgic"; "party"; "dance"; "summer"; "winter"; "night"; "morning";
  "driving"; "workout"; "study"; "background"; "instrumental"; "acoustic";
  "live"; "cover"; "remix"; "radio"; "edit"; "version"; "mix"; "single";
  "album"; "ep"; "compilation"; "soundtrack"; "theme"; "christmas";
  "holiday"
]%string.

(** The genre keywords that contain a non-genre keyword. *)
Definition shadowed_keywords : list pystr := map py [
  "step"; "disco"; "mainstream"; "digital"; "band"; "group"; "solo"; "duo";
  "trio"; "quartet"; "septet"
]%string.

(** The taxonomy keys that a non-genre pattern matches. *)
Definition blocked_keys : list pystr :=
  map py ["dubstep"; "chillwave"; "americana"; "dancehall"]%string.

(** Two entries of the input that differ at most in the case of their
    letters. *)
Definition same_lower (ucd : unicode_db) (a b : pyobj) : Prop :=
  match a, b with
  | PyStr s1, PyStr s2 => lower ucd s1 = lower ucd s2
  | PyStr _, _ | _, PyStr _ => False
  | _, _ => True
  end.

Definition with_genre_keywords (self : GenreExtractor) (kws : list pystr)
  : GenreExtractor := {|
  config := config self;
  known_genres := known_genres self;
  genre_keywords := kws;
  non_genre_patterns := non_genre_patterns self;
  non_genre_keywords := non_genre_keywords self;
  genre_families := genre_families self
|}.

Definition with_fuzzy_threshold (self : GenreExtractor) (thr : Z)
  : GenreExtractor := {|
  config := {| fuzzy_threshold := thr;
               min_tag_length := min_tag_length (config self);
               max_tag_length := max_tag_length (config self);
               keyword_threshold := keyword_threshold (config self);
               context_weight := context_weight (config self) |};
  known_genres := known_genres self;
  genre_keywords := genre_keywords self;
  non_genre_patterns := non_genre_patterns self;
  non_genre_keywords := non_genre_keywords self;
  genre_families := genre_families self
|}.


(** [isinstance(tag, str)]. *)
Definition isinstance_str (tag : pyobj) : bool :=
  match tag with
  | PyStr _ => true
  | _ => false
  end.

(** * Properties *)

(** ** Loops that append to an accumulator *)

Lemma fold_left_append {A B} (f : A -> option B) (l : list A) (acc : list B) :
  fold_left (fun acc x => match f x with Some y => acc ++ [y] | None => acc end)
    l acc = acc ++ omap f l.
Proof.
  revert acc. induction l as [|x l IH]; intros acc; cbn.
  - by rewrite app_nil_r.
  - rewrite IH. destruct (f x); [|done]. by rewrite <- app_assoc.
Qed.

Lemma fold_left_ext {A B} (f g : B -> A -> B) (l : list A) (acc : B) :
  (forall acc x, f acc x = g acc x) -> fold_left f l acc = fold_left g l acc.
Proof.
  intros Hfg. revert acc. induction l as [|x l IH]; intros acc; simpl; [done|].
  by rewrite Hfg, IH.
Qed.

Lemma omap_filter_Some {A} (p : A -> bool) (l : list A) :
  omap (fun x => if p x then Some x else None) l = List.filter p l.
Proof.
  induction l as [|x l IH]; [done|].
  cbn. destruct (p x); cbn; by rewrite IH.
Qed.

Lemma omap_length_le {A B} (f : A -> option B) (l : list A) :
  (length (omap f l) <= length l)%nat.
Proof.
  induction l as [|x l IH]; cbn; [lia|]. destruct (f x); cbn; lia.
Qed.

Lemma filter_length_le' {A} (p : A -> bool) (l : list A) :
  (length (List.filter p l) <= length l)%nat.
Proof. induction l as [|x l IH]; simpl; [lia|]. destruct (p x); simpl; lia. Qed.

Lemma filter_sublist {A} (p : A -> bool) (l : list A) :
  sublist (List.filter p l) l.
Proof.
  induction l as [|x l IH]; simpl; [constructor|].
  destruct (p x); by constructor.
Qed.

Lemma pystr_eqb_eq (a b : pystr) : pystr_eqb a b = true <-> a = b.
Proof. unfold pystr_eqb. by rewrite bool_decide_eq_true. Qed.

(** ** Regular expressions: the matcher and the relation *)

Section RegexFacts.
Variable ucd : unicode_db.

Lemma at_eol_spec s : at_eol s = true <-> s = [] \/ s = [10%N].
Proof.
  destruct s as [|c [|d s]]; simpl.
  - naive_solver.
  - rewrite N.eqb_eq. naive_solver.
  - naive_solver.
Qed.

Lemma star_spec cl k b s :
  star ucd cl k b s = true <->
  exists run s', s = run ++ s' /\
    Forall (fun c => cclass_match ucd cl c = true) run /\
    k (b && bool_decide (run = [])) s' = true.
Proof.
  revert b. induction s as [|c s IH]; intros b; simpl.
  - split.
    + intros Hk. exists [], []. by rewrite andb_true_r.
    + intros (run & s' & Hs & _ & Hk).
      symmetry in Hs. apply app_eq_nil in Hs as [-> ->].
      by rewrite andb_true_r in Hk.
  - rewrite orb_true_iff, andb_true_iff, IH. split.
    + intros [[Hc (run & s' & -> & Hrun & Hk)]|Hk].
      * exists (c :: run), s'. split; [done|]. split; [by constructor|].
        rewrite andb_false_r. by rewrite andb_false_l in Hk.
      * exists [], (c :: s). by rewrite andb_true_r.
    + intros (run & s' & Hs & Hrun & Hk). destruct run as [|c' run].
      * right. simpl in Hs. subst s'. by rewrite andb_true_r in Hk.
      * left. simpl in Hs. injection Hs as <- ->.
        apply Forall_cons in Hrun as [Hc Hrun]. split; [done|].
        exists run, s'. rewrite andb_false_r in Hk. by rewrite andb_false_l.
Qed.

Lemma rep_spec cl k n b s :
  rep ucd cl k n b s = true <->
  exists run s', s = run ++ s' /\
    Forall (fun c => cclass_match ucd cl c = true) run /\
    length run = n /\
    k (b && bool_decide (run = [])) s' = true.
Proof.
  revert b s. induction n as [|n IH]; intros b s; simpl.
  - split.
    + intros Hk. exists [], s. by rewrite andb_true_r.
    + intros (run & s' & -> & _ & Hlen & Hk).
      apply length_zero_iff_nil in Hlen. subst run.
      by rewrite andb_true_r in Hk.
  - destruct s as [|c s].
    + split; [done|]. intros (run & s' & Hs & _ & Hlen & _).
      symmetry in Hs. apply app_eq_nil in Hs as [-> _]. done.
    + rewrite andb_true_iff, IH. split.
      * intros [Hc (run & s' & -> & Hrun & Hlen & Hk)].
        exists (c :: run), s'. split; [done|]. split; [by constructor|].
        split; [simpl; by rewrite Hlen|].
        rewrite andb_false_r. by rewrite andb_false_l in Hk.
      * intros (run & s' & Hs & Hrun & Hlen & Hk).
        destruct run as [|c' run]; [done|].
        simpl in Hs, Hlen. injection Hs as <- ->.
        apply Forall_cons in Hrun as [Hc Hrun]. split; [done|].
        exists run, s'. rewrite andb_false_r in Hk.
        rewrite andb_false_l. split_and!; [done|done|lia|done].
Qed.

(** The matcher decides the relation. *)
Lemma match_items_spec p b s :
  match_items ucd p b s = true <-> matches_at ucd p b s.
Proof.
  revert b s. induction p as [|it rest IH]; intros b s.
  - split; [constructor|done].
  - destruct it as [| |cl q]; simpl.
    + rewrite andb_true_iff, IH. split.
      * intros [-> H]. by constructor.
      * inversion 1; subst. done.
    + rewrite andb_true_iff, at_eol_spec, IH. split.
      * intros [H1 H2]. by constructor.
      * inversion 1; subst. done.
    + destruct q as [| | |n].
      * split.
        -- destruct s as [|c s]; [done|].
           rewrite andb_true_iff, IH. intros [Hc H].
           apply (matches_atom ucd cl QOne rest b [c] s); [by repeat constructor|done|].
           by rewrite andb_false_r.
        -- inversion 1 as [| | |? ? ? ? run s' Hrun Hq Hrest]; subst.
           simpl in Hq. destruct run as [|c [|? ?]]; try done. simpl.
           apply Forall_cons in Hrun as [Hc _].
           rewrite andb_false_r in Hrest.
           rewrite andb_true_iff, IH. done.
      * rewrite orb_true_iff. split.
        -- intros [H|H].
           ++ destruct s as [|c s]; [done|].
              apply andb_true_iff in H as [Hc H]. apply IH in H.
              apply (matches_atom ucd cl QOpt rest b [c] s);
                [by repeat constructor|simpl; lia|].
              by rewrite andb_false_r.
           ++ apply IH in H.
              apply (matches_atom ucd cl QOpt rest b [] s);
                [constructor|simpl; lia|].
              by rewrite andb_true_r.
        -- inversion 1 as [| | |? ? ? ? run s' Hrun Hq Hrest]; subst.
           simpl in Hq. destruct run as [|c [|? ?]]; simpl in *; [| |lia].
           ++ right. rewrite andb_true_r in Hrest. by apply IH.
           ++ left. apply Forall_cons in Hrun as [Hc _].
              rewrite andb_false_r in Hrest.
              rewrite andb_true_iff, IH. done.
      * rewrite star_spec. split.
        -- intros (run & s' & -> & Hrun & H). apply IH in H.
           by apply matches_atom.
        -- inversion 1 as [| | |? ? ? ? run s' Hrun Hq Hrest]; subst.
           exists run, s'. split_and!; [done|done|]. by apply IH.
      * rewrite rep_spec. split.
        -- intros (run & s' & -> & Hrun & Hlen & H). apply IH in H.
           by apply matches_atom.
        -- inversion 1 as [| | |? ? ? ? run s' Hrun Hq Hrest]; subst.
           exists run, s'. split_and!; [done|done|done|]. by apply IH.
Qed.

Lemma re_match_spec p s : re_match ucd p s = true <-> matches_at ucd p true s.
Proof. apply match_items_spec. Qed.

(** The loop over the patterns is a disjunction. *)
Lemma is_non_genre_existsb patterns tag :
  is_non_genre ucd patterns tag =
  existsb (fun p => re_match ucd p tag) patterns.
Proof.
  induction patterns as [|p ps IH]; simpl; [done|].
  rewrite IH. by destruct (re_match ucd p tag).
Qed.

Lemma is_non_genre_spec patterns tag :
  is_non_genre ucd patterns tag = true <->
  exists p, p ∈ patterns /\ matches_at ucd p true tag.
Proof.
  rewrite is_non_genre_existsb, existsb_exists.
  setoid_rewrite <- list_elem_of_In. setoid_rewrite re_match_spec. done.
Qed.

Lemma is_non_genre_perm ps ps' tag :
  Permutation ps ps' ->
  is_non_genre ucd ps tag = is_non_genre ucd ps' tag.
Proof.
  intros Hperm. apply eq_true_iff_eq. rewrite !is_non_genre_spec.
  by setoid_rewrite Hperm.
Qed.
End RegexFacts.

(** ** First occurrences *)

Lemma filter_filter_weaker {A} (p q : A -> bool) (l : list A) :
  (forall y, p y = true -> q y = true) ->
  List.filter p (List.filter q l) = List.filter p l.
Proof.
  intros Hpq. induction l as [|x l IH]; simpl; [done|].
  destruct (q x) eqn:Hq; simpl.
  - by rewrite IH.
  - destruct (p x) eqn:Hp; [|done]. apply Hpq in Hp. congruence.
Qed.

Lemma filter_andb {A} (p q : A -> bool) (l : list A) :
  List.filter p (List.filter q l) = List.filter (fun y => p y && q y) l.
Proof.
  induction l as [|x l IH]; simpl; [done|].
  destruct (q x); simpl; rewrite ?andb_true_r, ?andb_false_r;
    [destruct (p x)|]; by rewrite IH.
Qed.

Lemma filter_all_true {A} (p : A -> bool) (l : list A) :
  (forall y, p y = true) -> List.filter p l = l.
Proof.
  intros Hp. induction l as [|x l IH]; simpl; [done|]. by rewrite Hp, IH.
Qed.

Lemma filter_ext' {A} (p q : A -> bool) (l : list A) :
  (forall y, p y = q y) -> List.filter p l = List.filter q l.
Proof.
  intros Hpq. induction l as [|x l IH]; simpl; [done|].
  by rewrite Hpq, IH.
Qed.

Lemma elem_of_first_seen x l : x ∈ first_seen l <-> x ∈ l.
Proof.
  induction l as [|y l IH]; simpl; [done|].
  rewrite !elem_of_cons, list_elem_of_In, filter_In, <- list_elem_of_In, IH.
  rewrite negb_true_iff. unfold pystr_eqb. rewrite bool_decide_eq_false.
  destruct (decide (x = y)); naive_solver.
Qed.

Lemma NoDup_filter' {A} (p : A -> bool) (l : list A) :
  NoDup l -> NoDup (List.filter p l).
Proof.
  induction 1 as [|x l Hx Hl IH]; simpl; [constructor|].
  destruct (p x); [|done]. constructor; [|done].
  rewrite list_elem_of_In, filter_In, <- list_elem_of_In. tauto.
Qed.

Lemma NoDup_first_seen l : NoDup (first_seen l).
Proof.
  induction l as [|x l IH]; simpl; constructor.
  - rewrite list_elem_of_In, filter_In. intros [_ H].
    apply negb_true_iff in H. unfold pystr_eqb in H.
    by apply bool_decide_eq_false in H.
  - by apply NoDup_filter'.
Qed.

Lemma first_seen_sublist l : sublist (first_seen l) l.
Proof.
  induction l as [|x l IH]; simpl; [constructor|].
  apply sublist_skip. etrans; [apply filter_sublist|done].
Qed.

Lemma first_seen_NoDup_id l : NoDup l -> first_seen l = l.
Proof.
  induction 1 as [|x l Hx Hl IH]; simpl; [done|].
  rewrite IH. f_equal. clear IH Hl.
  induction l as [|y l IH]; simpl; [done|].
  apply not_elem_of_cons in Hx as [Hxy Hx].
  unfold pystr_eqb at 1. rewrite bool_decide_false by done. simpl.
  by rewrite IH.
Qed.

Section ExtractorFacts.
Variable ucd : unicode_db.
Variable similarity : pystr -> pystr -> Z.
Variable self : GenreExtractor.

(** *** Stage 1 *)

Lemma clean_tags_omap tags :
  _clean_tags ucd self tags = omap (clean_entry ucd self) tags.
Proof.
  unfold _clean_tags.
  rewrite <- (app_nil_l (omap _ tags)). rewrite <- fold_left_append.
  apply fold_left_ext. intros acc [s| |]; simpl; try done.
  unfold length_ok, clean_tag.
  set (t := normalize_whitespace _).
  destruct (bool_decide _) eqn:Hd.
  - apply bool_decide_eq_true in Hd as [H1 H2].
    apply Z.leb_le in H1, H2. by rewrite H1, H2.
  - apply bool_decide_eq_false in Hd.
    destruct (Z.leb_spec (min_tag_length (config self)) (len t));
      destruct (Z.leb_spec (len t) (max_tag_length (config self)));
      simpl; try done. lia.
Qed.

(** A run of whitespace becomes one space, and what is not whitespace is
    kept as it is. *)
Lemma collapse_whitespace_run ws s :
  ws <> [] -> Forall (fun c => isspace c = true) ws -> lstrip s = s ->
  normalize_whitespace (ws ++ s) = 32%N :: normalize_whitespace s.
Proof.
  unfold normalize_whitespace. intros Hne Hws Hs.
  assert (Hrun : forall ws, Forall (fun c => isspace c = true) ws ->
            collapse_from true (ws ++ s) = collapse_from false s).
  { clear Hne Hws. induction 1 as [|c ws' Hc _ IH]; simpl.
    - destruct s as [|c s']; [done|]. simpl in *.
      destruct (isspace c) eqn:Hc; [|done].
      exfalso. clear -Hs. assert (length (lstrip s') <= length s')%nat.
      { clear. induction s' as [|d s' IH]; simpl; [lia|].
        destruct (isspace d); simpl; lia. }
      rewrite Hs in H. simpl in H. lia.
    - by rewrite Hc. }
  destruct Hws as [|c ws' Hc Hws]; [done|]. simpl. rewrite Hc. simpl.
  f_equal. by apply Hrun.
Qed.

Lemma collapse_word b w s :
  Forall (fun c => isspace c = false) w -> w <> [] ->
  collapse_from b (w ++ s) = w ++ collapse_from false s.
Proof.
  intros Hw Hne. revert b. induction Hw as [|c w' Hc Hw IH]; [done|].
  intros b. simpl. rewrite Hc. f_equal.
  destruct w' as [|d w'']; [done|]. by apply IH.
Qed.

(** *** Stage 2 *)

Lemma filter_non_genres_filter tags :
  _filter_non_genres ucd self tags =
  List.filter (fun t => negb (is_non_genre ucd (non_genre_patterns self) t))
    tags.
Proof.
  unfold _filter_non_genres. rewrite <- omap_filter_Some.
  rewrite <- (app_nil_l (omap _ tags)). rewrite <- fold_left_append.
  apply fold_left_ext. intros acc t. by destruct (negb _).
Qed.

(** *** Stage 3 *)

Lemma resolve_all_omap filtered :
  resolve_all ucd similarity self filtered = omap (resolved ucd similarity self filtered) filtered.
Proof.
  unfold resolve_all.
  rewrite <- (app_nil_l (omap _ filtered)). rewrite <- fold_left_append.
  apply fold_left_ext. intros acc t. unfold resolved.
  by destruct (_extract_genre_from_tag _ _ _ _ _) as [[|c g]|].
Qed.

End ExtractorFacts.

(** *** Stage 4 *)

Section DeduplicateFacts.
Variable ucd : unicode_db.

Lemma dedup_from (genres : list pystr) (seen : gset pystr)
  (acc : list pystr) :
  snd (fold_left
         (fun (st : gset pystr * list pystr) genre =>
            let '(seen, unique_genres) := st in
            let normalized := _normalize_genre_name ucd genre in
            if bool_decide (normalized ∈ seen) then st
            else ({[normalized]} ∪ seen, unique_genres ++ [normalized]))
         genres (seen, acc)) =
  acc ++ List.filter (fun y => negb (bool_decide (y ∈ seen)))
           (first_seen (map (_normalize_genre_name ucd) genres)).
Proof.
  revert seen acc. induction genres as [|g genres IH]; intros seen acc.
  - simpl. by rewrite app_nil_r.
  - cbn [fold_left map first_seen List.filter].
    set (n := _normalize_genre_name ucd g).
    destruct (bool_decide (n ∈ seen)) eqn:Hn; cbn [negb].
    + rewrite IH. f_equal. symmetry. apply filter_filter_weaker.
      intros y Hy. apply negb_true_iff, bool_decide_eq_false in Hy.
      apply bool_decide_eq_true in Hn. apply negb_true_iff.
      unfold pystr_eqb. apply bool_decide_eq_false. congruence.
    + rewrite IH, <- app_assoc. simpl. do 2 f_equal.
      rewrite filter_andb. apply filter_ext'. intros y.
      unfold pystr_eqb.
      destruct (decide (n = y)) as [->|Hny].
      * rewrite (bool_decide_true (y = y)) by done.
        rewrite bool_decide_true by set_solver. by rewrite andb_false_r.
      * rewrite (bool_decide_false (n = y)) by done. rewrite andb_true_r.
        f_equal. apply bool_decide_ext. set_solver.
Qed.

Lemma deduplicate_first_seen genres :
  _deduplicate_and_normalize ucd genres =
  first_seen (map (_normalize_genre_name ucd) genres).
Proof.
  unfold _deduplicate_and_normalize. rewrite dedup_from. simpl.
  apply filter_all_true. intros y. by rewrite bool_decide_false by set_solver.
Qed.

End DeduplicateFacts.

(** *** The pipeline as a composition *)

Section PipelineFacts.
Variable ucd : unicode_db.
Variable similarity : pystr -> pystr -> Z.
Variable self : GenreExtractor.

Lemma extract_genres_stages tags :
  extract_genres ucd similarity self tags =
  _deduplicate_and_normalize ucd
    (resolve_all ucd similarity self
       (_filter_non_genres ucd self (_clean_tags ucd self tags))).
Proof. by destruct tags. Qed.
End PipelineFacts.

Lemma dict_get_Some_elem {V} (d : pydict V) k v :
  dict_get d k = Some v -> (k, v) ∈ d.
Proof.
  induction d as [|[k' v'] d IH]; simpl; [done|].
  destruct (pystr_eqb k' k) eqn:Hk.
  - apply pystr_eqb_eq in Hk. intros [= ->]. subst. by left.
  - intros H. right. by apply IH.
Qed.

Lemma dict_get_values {V} (d : pydict V) k v :
  dict_get d k = Some v -> v ∈ dict_values d.
Proof.
  intros H. apply dict_get_Some_elem in H. unfold dict_values.
  apply list_elem_of_fmap. by exists (k, v).
Qed.

Lemma dict_get_key {V} (d : pydict V) k :
  k ∈ dict_keys d -> is_Some (dict_get d k).
Proof.
  unfold dict_keys. induction d as [|[k' v'] d IH]; simpl.
  - by intros ?%elem_of_nil.
  - intros H. destruct (pystr_eqb k' k) eqn:Hk; [by eexists|].
    apply elem_of_cons in H as [->|H]; [|by apply IH].
    unfold pystr_eqb in Hk. by rewrite bool_decide_true in Hk.
Qed.

Section ResolverFacts.
Variable ucd : unicode_db.
Variable similarity : pystr -> pystr -> Z.
Variable self : GenreExtractor.

Lemma elem_of_extractWithoutOrder query choices c sc :
  (c, sc) ∈ extractWithoutOrder similarity query choices <->
  c ∈ choices /\ sc = similarity query c /\ (0 <= sc)%Z.
Proof.
  unfold extractWithoutOrder.
  rewrite list_elem_of_In, filter_In, <- list_elem_of_In, list_elem_of_fmap.
  simpl. rewrite Z.leb_le. split.
  - intros [(c' & [= -> ->] & Hc) H0]. done.
  - intros (Hc & -> & H0). split; [|done]. by exists c.
Qed.

Lemma max_by_score_elem best l :
  max_by_score best l ∈ best :: l.
Proof.
  revert best. induction l as [|m l IH]; intros best; simpl.
  - by left.
  - specialize (IH (if (snd best <? snd m)%Z then m else best)).
    apply elem_of_cons in IH as [->|IH].
    + destruct (snd best <? snd m)%Z; [right; by left|by left].
    + right. by right.
Qed.

Lemma max_by_score_ge best l :
  (snd best <= snd (max_by_score best l))%Z /\
  forall m, m ∈ l -> (snd m <= snd (max_by_score best l))%Z.
Proof.
  revert best. induction l as [|m l IH]; intros best; simpl.
  - split; [lia|]. by intros m ?%elem_of_nil.
  - destruct (IH (if (snd best <? snd m)%Z then m else best)) as [H1 H2].
    destruct (Z.ltb_spec (snd best) (snd m)).
    + split; [lia|]. intros m' [->|Hm']%elem_of_cons; [done|by apply H2].
    + split; [done|]. intros m' [->|Hm']%elem_of_cons; [lia|by apply H2].
Qed.

(** [extractOne] returns a choice of the highest score, or nothing when no
    score reaches the cutoff 0. *)
Lemma extractOne_Some query choices c sc :
  extractOne similarity query choices = Some (c, sc) ->
  c ∈ choices /\ sc = similarity query c /\ (0 <= sc)%Z /\
  forall c', c' ∈ choices -> (similarity query c' <= sc)%Z.
Proof.
  unfold extractOne.
  destruct (extractWithoutOrder similarity query choices) as [|m l] eqn:El;
    [done|].
  intros [= Hmax].
  pose proof (max_by_score_elem m l) as Hin.
  pose proof (max_by_score_ge m l) as [Hge1 Hge2].
  rewrite Hmax in Hin, Hge1, Hge2. rewrite <- El in Hin.
  apply elem_of_extractWithoutOrder in Hin as (Hc & Hsc & H0).
  split_and!; [done..|]. intros c' Hc'. simpl in *.
  destruct (Z.le_gt_cases 0 (similarity query c')) as [Hpos|Hneg]; [|lia].
  assert ((c', similarity query c') ∈ m :: l) as [<-|Hin]%elem_of_cons.
  { rewrite <- El. by apply elem_of_extractWithoutOrder. }
  - done.
  - by apply (Hge2 _ Hin).
Qed.

Lemma extractOne_None query choices :
  extractOne similarity query choices = None ->
  forall c', c' ∈ choices -> (similarity query c' < 0)%Z.
Proof.
  unfold extractOne.
  destruct (extractWithoutOrder similarity query choices) as [|m l] eqn:El;
    [|done].
  intros _ c' Hc'.
  destruct (Z.lt_ge_cases (similarity query c') 0) as [|Hpos]; [done|].
  assert ((c', similarity query c') ∈ @nil (pystr * Z)) as []%elem_of_nil.
  rewrite <- El. by apply elem_of_extractWithoutOrder.
Qed.

Lemma fuzzy_match_Some tag g :
  _fuzzy_match_genre similarity self tag = Some g <->
  exists k sc,
    extractOne similarity tag (dict_keys (known_genres self)) = Some (k, sc) /\
    (fuzzy_threshold (config self) <= sc)%Z /\
    dict_get (known_genres self) k = Some g.
Proof.
  unfold _fuzzy_match_genre.
  destruct (extractOne _ _ _) as [[k sc]|]; simpl.
  - destruct (Z.leb_spec (fuzzy_threshold (config self)) sc).
    + split; [by exists k, sc|]. by intros (? & ? & [= <- <-] & _ & ?).
    + split; [done|]. intros (? & ? & [= <- <-] & ? & _). lia.
  - split; [done|]. by intros (? & ? & ? & _).
Qed.

Lemma fuzzy_match_below tag :
  (forall k, k ∈ dict_keys (known_genres self) ->
             (similarity tag k < fuzzy_threshold (config self))%Z) ->
  _fuzzy_match_genre similarity self tag = None.
Proof.
  intros Hlow. destruct (_fuzzy_match_genre _ _ _) as [g|] eqn:Hf; [|done].
  apply fuzzy_match_Some in Hf as (k & sc & Hone & Hthr & _).
  apply extractOne_Some in Hone as (Hk & -> & _). apply Hlow in Hk. lia.
Qed.

Lemma fuzzy_match_values tag g :
  _fuzzy_match_genre similarity self tag = Some g ->
  g ∈ dict_values (known_genres self).
Proof.
  intros (k & sc & _ & _ & Hg)%fuzzy_match_Some. by eapply dict_get_values.
Qed.

(** What the resolver can return. *)
Lemma extract_genre_cases tag all_tags g :
  _extract_genre_from_tag ucd similarity self tag all_tags = Some g ->
  g ∈ dict_values (known_genres self) \/
  (g = tag /\ dict_get (known_genres self) tag = None /\
   (_is_genre_by_keywords ucd self tag = true \/
    _is_genre_by_context ucd self tag all_tags = true)).
Proof.
  unfold _extract_genre_from_tag.
  destruct (dict_get (known_genres self) tag) as [g'|] eqn:Hk.
  - intros [= ->]. left. by eapply dict_get_values.
  - cbv zeta.
    destruct (truthy (_fuzzy_match_genre similarity self tag)) eqn:Ht.
    + intros Hf. left. by eapply fuzzy_match_values.
    + destruct (_is_genre_by_keywords ucd self tag) eqn:Hkw.
      * intros [= <-]. right. auto.
      * destruct (_is_genre_by_context ucd self tag all_tags) eqn:Hctx;
          [|done].
        intros [= <-]. right. auto.
Qed.

(** When no canonical name is empty, the truth test on the fuzzy match only
    separates a match from no match. *)
Hypothesis canonical_nonempty :
  Forall (fun v => v <> []) (dict_values (known_genres self)).

Lemma fuzzy_truthy tag :
  truthy (_fuzzy_match_genre similarity self tag) =
  bool_decide (is_Some (_fuzzy_match_genre similarity self tag)).
Proof using canonical_nonempty.
  destruct (_fuzzy_match_genre similarity self tag) as [g|] eqn:Hf; [|done].
  apply fuzzy_match_values in Hf.
  rewrite Forall_forall in canonical_nonempty.
  apply canonical_nonempty in Hf. by destruct g.
Qed.

Lemma extract_genre_table tag all_tags :
  _extract_genre_from_tag ucd similarity self tag all_tags =
  match dict_get (known_genres self) tag with
  | Some g => Some g
  | None =>
      match _fuzzy_match_genre similarity self tag with
      | Some g => Some g
      | None =>
          if _is_genre_by_keywords ucd self tag then Some tag
          else if _is_genre_by_context ucd self tag all_tags then Some tag
          else None
      end
  end.
Proof using canonical_nonempty.
  unfold _extract_genre_from_tag.
  destruct (dict_get (known_genres self) tag); [done|]. cbv zeta.
  rewrite fuzzy_truthy.
  by destruct (_fuzzy_match_genre similarity self tag).
Qed.

Lemma resolved_exact all_tags tag g :
  dict_get (known_genres self) tag = Some g ->
  resolved ucd similarity self all_tags tag = Some g.
Proof using canonical_nonempty.
  intros Hk. unfold resolved, _extract_genre_from_tag. rewrite Hk.
  apply dict_get_values in Hk.
  rewrite Forall_forall in canonical_nonempty.
  apply canonical_nonempty in Hk. by destruct g.
Qed.
End ResolverFacts.

(** ** The reference tables *)

Lemma Forall_of_forallb {A} (p : A -> bool) (P : A -> Prop) (l : list A) :
  (forall x, p x = true -> P x) -> forallb p l = true -> Forall P l.
Proof.
  intros Hp Hall. apply Forall_forall. intros x Hx.
  apply Hp. rewrite forallb_forall in Hall. apply Hall.
  by apply list_elem_of_In.
Qed.

(** Every pattern of the source is read. *)
Lemma non_genre_patterns_compile :
  mapM re_compile non_genre_pattern_sources = Some _load_non_genre_patterns.
Proof. vm_compute. reflexivity. Qed.

Lemma taxonomy_keys_NoDup : NoDup (dict_keys _load_genre_taxonomy).
Proof. apply (bool_decide_unpack _). vm_compute. exact I. Qed.

Lemma taxonomy_canonical_nonempty cfg :
  Forall (fun v => v <> []) (dict_values (known_genres (__init__ cfg))).
Proof.
  apply (Forall_of_forallb (fun v => negb (bool_decide (v = [])))).
  - intros v Hv. by apply negb_true_iff, bool_decide_eq_false in Hv.
  - vm_compute. reflexivity.
Qed.

Section Tables.
Variable ucd : unicode_db.
Variable cfg : option GenreExtractionConfig.

(** A key that passes the rule filter has a canonical name that, once
    normalized, passes it too. *)
Lemma taxonomy_stays_clear k v :
  dict_get (known_genres (__init__ cfg)) k = Some v ->
  is_non_genre ucd (non_genre_patterns (__init__ cfg)) k = false ->
  is_non_genre ucd (non_genre_patterns (__init__ cfg))
    (_normalize_genre_name ucd v) = false.
Proof.
  intros Hk%dict_get_Some_elem Hclear.
  assert (Hall : forallb
            (fun kv =>
               is_non_genre ucd (non_genre_patterns (__init__ cfg)) (fst kv) ||
               negb (is_non_genre ucd (non_genre_patterns (__init__ cfg))
                       (_normalize_genre_name ucd (snd kv))))
            (known_genres (__init__ cfg)) = true)
    by (vm_compute; reflexivity).
  rewrite forallb_forall in Hall.
  apply list_elem_of_In, Hall in Hk. cbn beta in Hk. cbn [fst snd] in Hk.
  rewrite Hclear, orb_false_l in Hk. apply negb_true_iff in Hk. exact Hk.
Qed.

Lemma normalization_values_clear k v :
  normalizations !! k = Some v ->
  is_non_genre ucd (non_genre_patterns (__init__ cfg)) v = false.
Proof.
  intros Hk%elem_of_list_to_map_2.
  assert (Hall : forallb
            (fun kv =>
               negb (is_non_genre ucd (non_genre_patterns (__init__ cfg))
                       (snd kv)))
            normalization_table = true) by (vm_compute; reflexivity).
  rewrite forallb_forall in Hall.
  apply list_elem_of_In, Hall in Hk. cbn beta in Hk. cbn [snd] in Hk.
  apply negb_true_iff in Hk. exact Hk.
Qed.

(** The canonical names that a non-genre pattern matches once they are
    normalized are the four blocked keys. *)
Lemma matched_canonical_is_blocked g :
  g ∈ dict_values (known_genres (__init__ cfg)) ->
  is_non_genre ucd (non_genre_patterns (__init__ cfg))
    (_normalize_genre_name ucd g) = true ->
  _normalize_genre_name ucd g ∈ blocked_keys.
Proof.
  intros Hg Hm.
  assert (Hall : forallb
            (fun v =>
               negb (is_non_genre ucd (non_genre_patterns (__init__ cfg))
                       (_normalize_genre_name ucd v)) ||
               bool_decide (_normalize_genre_name ucd v ∈ blocked_keys))
            (dict_values (known_genres (__init__ cfg))) = true)
    by (vm_compute; reflexivity).
  rewrite forallb_forall in Hall.
  apply list_elem_of_In, Hall in Hg. cbn beta in Hg.
  rewrite Hm in Hg. cbn [negb orb] in Hg.
  apply bool_decide_eq_true in Hg. exact Hg.
Qed.
End Tables.

(** ** The stages *)

(** C5: the fuzzy stage takes a key of the highest score and returns the
    canonical name of that key exactly when the score reaches the threshold
    (80 by default): a score equal to the threshold is accepted, a score one
    below is rejected. *)
Theorem fuzzy_threshold_inclusive (similarity : pystr -> pystr -> Z)
  (self : GenreExtractor) (tag : pystr) :
  fuzzy_threshold default_config = 80%Z /\
  match extractOne similarity tag (dict_keys (known_genres self)) with
  | Some (k, sc) =>
      k ∈ dict_keys (known_genres self) /\
      sc = similarity tag k /\
      (forall k', k' ∈ dict_keys (known_genres self) ->
                  (similarity tag k' <= sc)%Z) /\
      is_Some (dict_get (known_genres self) k) /\
      _fuzzy_match_genre similarity self tag =
        (if bool_decide (fuzzy_threshold (config self) <= sc)%Z
         then dict_get (known_genres self) k else None) /\
      (sc = fuzzy_threshold (config self) ->
       _fuzzy_match_genre similarity self tag = dict_get (known_genres self) k) /\
      (sc = (fuzzy_threshold (config self) - 1)%Z ->
       _fuzzy_match_genre similarity self tag = None)
  | None =>
      _fuzzy_match_genre similarity self tag = None /\
      forall k', k' ∈ dict_keys (known_genres self) ->
                 (similarity tag k' < 0)%Z
  end.
Proof.
  split; [reflexivity|].
  destruct (extractOne similarity tag (dict_keys (known_genres self)))
    as [[k sc]|] eqn:Hone.
  - pose proof (extractOne_Some _ _ _ _ _ Hone) as (Hk & Hsc & _ & Hmax).
    assert (Hf : _fuzzy_match_genre similarity self tag =
                 (if bool_decide (fuzzy_threshold (config self) <= sc)%Z
                  then dict_get (known_genres self) k else None)).
    { unfold _fuzzy_match_genre. rewrite Hone. cbn [fst snd].
      destruct (Z.leb_spec (fuzzy_threshold (config self)) sc).
      - by rewrite bool_decide_true.
      - rewrite bool_decide_false; [done|lia]. }
    split_and!; try done.
    + by apply dict_get_key.
    + intros ->. rewrite Hf. rewrite bool_decide_true; [done|lia].
    + intros ->. rewrite Hf. rewrite bool_decide_false; [done|lia].
  - split.
    + unfold _fuzzy_match_genre. by rewrite Hone.
    + by apply extractOne_None.
Qed.

(** C7: the last stage normalizes every genre through the synonym table and
    keeps the first occurrence of every normalized name, in order; the tags
    rock, ROCK, rock give the single genre rock. *)
Theorem deduplicate_normalizes_first (ucd : unicode_db)
  (similarity : pystr -> pystr -> Z) (genres : list pystr) :
  _deduplicate_and_normalize ucd genres =
    first_seen (map (_normalize_genre_name ucd) genres) /\
  NoDup (_deduplicate_and_normalize ucd genres) /\
  (forall g, g ∈ _deduplicate_and_normalize ucd genres <->
             exists g0, g0 ∈ genres /\ g = _normalize_genre_name ucd g0) /\
  _normalize_genre_name ucd (py "hiphop") = py "hip-hop" /\
  _normalize_genre_name ucd (py "alternative") = py "alternative rock" /\
  extract_genres ucd similarity (__init__ None)
    (tags_of ["rock"; "ROCK"; "rock"]%string) = [py "rock"].
Proof.
  rewrite deduplicate_first_seen.
  split; [reflexivity|]. split; [apply NoDup_first_seen|]. split.
  { intros g. rewrite elem_of_first_seen, list_elem_of_fmap.
    split; intros (g0 & H1 & H2); exists g0; auto. }
  split; [vm_compute; reflexivity|]. split; vm_compute; reflexivity.
Qed.

(** C8: the rule filter drops a tag exactly when one of the patterns matches
    a prefix of it (case-insensitively); what it keeps is a subsequence of
    its input, and the order of the patterns does not matter. *)
Theorem filter_drops_matched (ucd : unicode_db) (self : GenreExtractor)
  (tags : list pystr) :
  _filter_non_genres ucd self tags =
    List.filter
      (fun t => negb (existsb (fun p => re_match ucd p t)
                        (non_genre_patterns self)))
      tags /\
  (forall t, t ∈ _filter_non_genres ucd self tags <->
             t ∈ tags /\
             ~ exists p, p ∈ non_genre_patterns self /\
                         matches_at ucd p true t) /\
  sublist (_filter_non_genres ucd self tags) tags /\
  (forall self',
      non_genre_patterns self' ≡ₚ non_genre_patterns self ->
      _filter_non_genres ucd self' tags = _filter_non_genres ucd self tags).
Proof.
  split_and!.
  - rewrite filter_non_genres_filter. apply filter_ext'.
    intros t. by rewrite is_non_genre_existsb.
  - intros t. rewrite filter_non_genres_filter.
    rewrite list_elem_of_In, filter_In, <- list_elem_of_In.
    rewrite negb_true_iff, <- not_true_iff_false, is_non_genre_spec. done.
  - rewrite filter_non_genres_filter. apply filter_sublist.
  - intros self' Hperm. rewrite !filter_non_genres_filter.
    apply filter_ext'. intros t. f_equal. by apply is_non_genre_perm.
Qed.

(** The pipeline only reads the three live fields of the configuration. *)
Lemma extract_genres_same_but_inert (ucd : unicode_db)
  (similarity : pystr -> pystr -> Z) (a b : GenreExtractor)
  (tags : list pyobj) :
  same_but_inert a b ->
  extract_genres ucd similarity a tags = extract_genres ucd similarity b tags.
Proof.
  destruct a as [ca ka gka pa nka fa], b as [cb kb gkb pb nkb fb].
  unfold same_but_inert. cbn [config known_genres genre_keywords
    non_genre_patterns non_genre_keywords genre_families].
  intros (H1 & H2 & H3 & -> & -> & -> & -> & ->).
  unfold extract_genres, _clean_tags, _filter_non_genres, resolve_all,
    _extract_genre_from_tag, _fuzzy_match_genre, length_ok,
    _is_genre_by_keywords, _is_genre_by_context.
  cbn [config known_genres genre_keywords non_genre_patterns
       non_genre_keywords genre_families].
  rewrite H1, H2, H3. reflexivity.
Qed.

(** C9: two configurations that agree on the fuzzy threshold and on the two
    length bounds give the same output, whatever their keyword threshold and
    context weight. *)
Theorem inert_config_fields (ucd : unicode_db)
  (similarity : pystr -> pystr -> Z) (cfg1 cfg2 : GenreExtractionConfig)
  (tags : list pyobj) :
  fuzzy_threshold cfg1 = fuzzy_threshold cfg2 ->
  min_tag_length cfg1 = min_tag_length cfg2 ->
  max_tag_length cfg1 = max_tag_length cfg2 ->
  extract_genres ucd similarity (__init__ (Some cfg1)) tags =
  extract_genres ucd similarity (__init__ (Some cfg2)) tags.
Proof.
  intros H1 H2 H3. apply extract_genres_same_but_inert.
  unfold same_but_inert, __init__.
  cbn [config known_genres genre_keywords non_genre_patterns
       non_genre_keywords genre_families default].
  auto 10.
Qed.

(** C10: every string of the output is a canonical name of the taxonomy, a
    value of the synonym table, or a tag that passed the filter and was
    returned as it is by the keyword or the context strategy; the output is
    no longer than the input. *)
Theorem output_provenance (ucd : unicode_db)
  (similarity : pystr -> pystr -> Z) (self : GenreExtractor)
  (tags : list pyobj) :
  Forall
    (fun g =>
       g ∈ dict_values (known_genres self) \/
       (exists k, normalizations !! k = Some g) \/
       (g ∈ _filter_non_genres ucd self (_clean_tags ucd self tags) /\
        dict_get (known_genres self) g = None /\
        (_is_genre_by_keywords ucd self g = true \/
         _is_genre_by_context ucd self g
           (_filter_non_genres ucd self (_clean_tags ucd self tags)) = true)))
    (extract_genres ucd similarity self tags) /\
  (length (extract_genres ucd similarity self tags) <= length tags)%nat.
Proof.
  rewrite extract_genres_stages, deduplicate_first_seen, resolve_all_omap.
  set (filtered := _filter_non_genres ucd self (_clean_tags ucd self tags)).
  split.
  - apply Forall_forall. intros g.
    rewrite elem_of_first_seen, list_elem_of_fmap.
    intros (r & -> & Hr). apply list_elem_of_omap in Hr as (t & Ht & Hres).
    unfold _normalize_genre_name.
    destruct (normalizations !! lower ucd r) as [v|] eqn:Hn; simpl.
    { right; left. by eexists. }
    unfold resolved in Hres.
    destruct (_extract_genre_from_tag ucd similarity self t filtered)
      as [[|c g]|] eqn:He; try done.
    injection Hres as <-.
    apply extract_genre_cases in He as [Hv|(-> & Hk & Hs)]; [by left|].
    right; right. done.
  - etrans; [apply sublist_length, first_seen_sublist|].
    rewrite length_map.
    etrans; [apply omap_length_le|]. subst filtered.
    rewrite filter_non_genres_filter.
    etrans; [apply filter_length_le'|].
    rewrite clean_tags_omap. apply omap_length_le.
Qed.

Lemma omap_cons_Some {A B} (f : A -> option B) x y l :
  f x = Some y -> omap f (x :: l) = y :: omap f l.
Proof. intros H. cbn. by rewrite H. Qed.

Lemma omap_cons_None {A B} (f : A -> option B) x l :
  f x = None -> omap f (x :: l) = omap f l.
Proof. intros H. cbn. by rewrite H. Qed.

Section PipelineOnKeys.
Variable ucd : unicode_db.
Variable similarity : pystr -> pystr -> Z.
Variable self : GenreExtractor.

Lemma normalize_cases g :
  (exists k, normalizations !! k = Some (_normalize_genre_name ucd g)) \/
  _normalize_genre_name ucd g = g.
Proof.
  unfold _normalize_genre_name.
  destruct (normalizations !! lower ucd g) as [v|] eqn:Hn.
  - left. by exists (lower ucd g).
  - by right.
Qed.

Lemma elem_of_filter_non_genres t tags :
  t ∈ _filter_non_genres ucd self tags <->
  t ∈ tags /\ is_non_genre ucd (non_genre_patterns self) t = false.
Proof.
  rewrite filter_non_genres_filter.
  by rewrite list_elem_of_In, filter_In, <- list_elem_of_In, negb_true_iff.
Qed.

Lemma elem_of_extract_genres g tags :
  g ∈ extract_genres ucd similarity self tags <->
  exists t r,
    t ∈ _filter_non_genres ucd self (_clean_tags ucd self tags) /\
    resolved ucd similarity self
      (_filter_non_genres ucd self (_clean_tags ucd self tags)) t = Some r /\
    g = _normalize_genre_name ucd r.
Proof.
  rewrite extract_genres_stages, deduplicate_first_seen, resolve_all_omap.
  rewrite elem_of_first_seen, list_elem_of_fmap.
  setoid_rewrite list_elem_of_omap. naive_solver.
Qed.

Lemma resolved_keyword all_tags tag :
  dict_get (known_genres self) tag = None ->
  _fuzzy_match_genre similarity self tag = None ->
  _is_genre_by_keywords ucd self tag = true ->
  tag <> [] ->
  resolved ucd similarity self all_tags tag = Some tag.
Proof.
  intros Hk Hf Hkw Hne. unfold resolved, _extract_genre_from_tag.
  rewrite Hk. cbv zeta. rewrite Hf. cbn [truthy]. rewrite Hkw.
  by destruct tag.
Qed.

Lemma resolved_nothing all_tags tag :
  dict_get (known_genres self) tag = None ->
  _fuzzy_match_genre similarity self tag = None ->
  _is_genre_by_keywords ucd self tag = false ->
  _is_genre_by_context ucd self tag all_tags = false ->
  resolved ucd similarity self all_tags tag = None.
Proof.
  intros Hk Hf Hkw Hctx. unfold resolved, _extract_genre_from_tag.
  rewrite Hk. cbv zeta. rewrite Hf. cbn [truthy]. by rewrite Hkw, Hctx.
Qed.

Hypothesis canonical_nonempty :
  Forall (fun v => v <> []) (dict_values (known_genres self)).

Lemma exact_key_in_output tags k g :
  k ∈ _clean_tags ucd self tags ->
  dict_get (known_genres self) k = Some g ->
  is_non_genre ucd (non_genre_patterns self) k = false ->
  _normalize_genre_name ucd g ∈ extract_genres ucd similarity self tags.
Proof using canonical_nonempty.
  intros Hk Hg Hclear. apply elem_of_extract_genres. exists k, g.
  split_and!; [|by apply resolved_exact|done].
  by apply elem_of_filter_non_genres.
Qed.

Lemma extract_genre_None tag all_tags :
  _extract_genre_from_tag ucd similarity self tag all_tags = None <->
  dict_get (known_genres self) tag = None /\
  _fuzzy_match_genre similarity self tag = None /\
  _is_genre_by_keywords ucd self tag = false /\
  _is_genre_by_context ucd self tag all_tags = false.
Proof using canonical_nonempty.
  rewrite extract_genre_table by done.
  destruct (dict_get (known_genres self) tag); [naive_solver|].
  destruct (_fuzzy_match_genre similarity self tag); [naive_solver|].
  destruct (_is_genre_by_keywords ucd self tag); [naive_solver|].
  destruct (_is_genre_by_context ucd self tag all_tags); naive_solver.
Qed.

Hypothesis keys_stay_clear : forall k v,
  dict_get (known_genres self) k = Some v ->
  is_non_genre ucd (non_genre_patterns self) k = false ->
  is_non_genre ucd (non_genre_patterns self) (_normalize_genre_name ucd v)
  = false.

Hypothesis synonyms_clear : forall k v,
  normalizations !! k = Some v ->
  is_non_genre ucd (non_genre_patterns self) v = false.

Lemma matched_in_output_by_fuzzy tags c :
  is_non_genre ucd (non_genre_patterns self) c = true ->
  c ∈ extract_genres ucd similarity self tags ->
  exists t g,
    t ∈ _filter_non_genres ucd self (_clean_tags ucd self tags) /\
    t <> c /\
    dict_get (known_genres self) t = None /\
    _fuzzy_match_genre similarity self t = Some g /\
    _normalize_genre_name ucd g = c.
Proof using canonical_nonempty keys_stay_clear synonyms_clear.
  intros Hc (t & r & Ht & Hres & ->)%elem_of_extract_genres.
  pose proof Ht as [_ Hclear]%elem_of_filter_non_genres.
  revert Ht Hres.
  generalize (_filter_non_genres ucd self (_clean_tags ucd self tags)).
  intros filtered Ht Hres.
  unfold resolved in Hres.
  destruct (_extract_genre_from_tag ucd similarity self t filtered)
    as [[|c0 g0]|] eqn:He; try discriminate Hres.
  injection Hres as <-.
  rewrite extract_genre_table in He by exact canonical_nonempty.
  destruct (dict_get (known_genres self) t) as [g|] eqn:Hk.
  { injection He as ->. rewrite (keys_stay_clear t (c0 :: g0) Hk Hclear) in Hc.
    discriminate Hc. }
  destruct (_fuzzy_match_genre similarity self t) as [g|] eqn:Hf.
  { injection He as ->. exists t, (c0 :: g0).
    split; [exact Ht|]. split; [|split; [exact Hk|split; [exact Hf|reflexivity]]].
    intros ->. rewrite Hclear in Hc. discriminate Hc. }
  assert (c0 :: g0 = t) as Heq.
  { destruct (_is_genre_by_keywords ucd self t);
      [|destruct (_is_genre_by_context ucd self t filtered)];
      congruence. }
  rewrite Heq in Hc.
  destruct (normalize_cases t) as [(k & Hn)|Hn].
  - apply synonyms_clear in Hn. rewrite Hn in Hc. discriminate Hc.
  - rewrite Hn, Hclear in Hc. discriminate Hc.
Qed.
End PipelineOnKeys.

(** ** The resolver and the pipeline on the tables of the source *)

(** C6: the resolver tries the exact lookup, the fuzzy match, the keywords
    and the context in this order and returns what the first successful one
    gives: the canonical name for the first two, the tag itself for the last
    two; it returns nothing exactly when the four of them fail. *)
Theorem resolver_strategy_order (ucd : unicode_db)
  (similarity : pystr -> pystr -> Z) (cfg : option GenreExtractionConfig)
  (tag : pystr) (all_tags : list pystr) :
  _extract_genre_from_tag ucd similarity (__init__ cfg) tag all_tags =
    match dict_get (known_genres (__init__ cfg)) tag with
    | Some g => Some g
    | None =>
        match _fuzzy_match_genre similarity (__init__ cfg) tag with
        | Some g => Some g
        | None =>
            if _is_genre_by_keywords ucd (__init__ cfg) tag then Some tag
            else if _is_genre_by_context ucd (__init__ cfg) tag all_tags
                 then Some tag
                 else None
        end
    end /\
  (_extract_genre_from_tag ucd similarity (__init__ cfg) tag all_tags = None
   <->
   dict_get (known_genres (__init__ cfg)) tag = None /\
   _fuzzy_match_genre similarity (__init__ cfg) tag = None /\
   _is_genre_by_keywords ucd (__init__ cfg) tag = false /\
   _is_genre_by_context ucd (__init__ cfg) tag all_tags = false).
Proof.
  pose proof (taxonomy_canonical_nonempty cfg) as Hne.
  split.
  - by apply extract_genre_table.
  - by apply extract_genre_None.
Qed.

(** C1 (as amended): a tag whose cleaned form is a key of the taxonomy and
    is matched by no non-genre pattern puts the normalized form of the
    canonical name of that key into the output. *)
Theorem exact_key_normalized_canonical (ucd : unicode_db)
  (similarity : pystr -> pystr -> Z) (cfg : option GenreExtractionConfig)
  (tags : list pyobj) (k g : pystr) :
  k ∈ _clean_tags ucd (__init__ cfg) tags ->
  dict_get (known_genres (__init__ cfg)) k = Some g ->
  is_non_genre ucd (non_genre_patterns (__init__ cfg)) k = false ->
  _normalize_genre_name ucd g ∈
    extract_genres ucd similarity (__init__ cfg) tags.
Proof.
  intros Hk Hg Hclear.
  apply (exact_key_in_output ucd similarity (__init__ cfg)
           (taxonomy_canonical_nonempty cfg) tags k g Hk Hg Hclear).
Qed.

(** C2 (as amended): a string that a non-genre pattern matches is never
    passed to the resolver, and it is nowhere in the output unless it is one
    of the four taxonomy keys that the patterns match (dubstep, chillwave,
    americana, dancehall); such a key is in the output only as the
    normalized canonical name that the fuzzy match gives to another tag, one
    that passed the filter and is no key. *)
Theorem matched_tag_only_by_fuzzy (ucd : unicode_db)
  (similarity : pystr -> pystr -> Z) (cfg : option GenreExtractionConfig)
  (tags : list pyobj) (c : pystr) :
  is_non_genre ucd (non_genre_patterns (__init__ cfg)) c = true ->
  c ∉ _filter_non_genres ucd (__init__ cfg)
        (_clean_tags ucd (__init__ cfg) tags) /\
  (c ∉ blocked_keys ->
   c ∉ extract_genres ucd similarity (__init__ cfg) tags) /\
  (c ∈ extract_genres ucd similarity (__init__ cfg) tags ->
   c ∈ blocked_keys /\
   exists t g,
     t ∈ _filter_non_genres ucd (__init__ cfg)
           (_clean_tags ucd (__init__ cfg) tags) /\
     t <> c /\
     dict_get (known_genres (__init__ cfg)) t = None /\
     _fuzzy_match_genre similarity (__init__ cfg) t = Some g /\
     _normalize_genre_name ucd g = c).
Proof.
  intros Hc.
  assert (Hout : c ∈ extract_genres ucd similarity (__init__ cfg) tags ->
                 c ∈ blocked_keys /\
                 exists t g,
                   t ∈ _filter_non_genres ucd (__init__ cfg)
                         (_clean_tags ucd (__init__ cfg) tags) /\
                   t <> c /\
                   dict_get (known_genres (__init__ cfg)) t = None /\
                   _fuzzy_match_genre similarity (__init__ cfg) t = Some g /\
                   _normalize_genre_name ucd g = c).
  { intros Hin.
    destruct (matched_in_output_by_fuzzy ucd similarity (__init__ cfg)
                (taxonomy_canonical_nonempty cfg)
                (taxonomy_stays_clear ucd cfg)
                (normalization_values_clear ucd cfg) tags c Hc Hin)
      as (t & g & Ht & Hne & Hk & Hf & Hg).
    split.
    - pose proof (fuzzy_match_values similarity (__init__ cfg) t g Hf) as Hv.
      rewrite <- Hg in Hc. rewrite <- Hg.
      exact (matched_canonical_is_blocked ucd cfg g Hv Hc).
    - exists t, g.
      split; [exact Ht|]. split; [exact Hne|]. split; [exact Hk|].
      split; [exact Hf|exact Hg]. }
  split.
  - intros [_ Hclear]%elem_of_filter_non_genres.
    rewrite Hc in Hclear. discriminate Hclear.
  - split; [|exact Hout].
    intros Hnb Hin. apply Hnb. exact (proj1 (Hout Hin)).
Qed.

(** ** The usage example *)

Section MainExample.
Variable ucd : unicode_db.
Variable similarity : pystr -> pystr -> Z.
Hypothesis loose_scores : scores_below_threshold similarity = true.

Lemma loose_tag_no_fuzzy t :
  t ∈ main_loose_tags ->
  _fuzzy_match_genre similarity (__init__ None) t = None.
Proof using loose_scores.
  intros Ht. apply fuzzy_match_below. intros k Hk.
  unfold scores_below_threshold in loose_scores.
  rewrite forallb_forall in loose_scores.
  apply list_elem_of_In, loose_scores in Ht.
  rewrite forallb_forall in Ht.
  apply list_elem_of_In, Ht, Z.ltb_lt in Hk. exact Hk.
Qed.

Lemma main_filtered :
  _filter_non_genres ucd (__init__ None)
    (_clean_tags ucd (__init__ None) main_tags) =
  [py "folk"; py "alternative"; py "folk pop"; py "indie folk"; py "pop";
   py "chamber pop"; py "indie"; py "singer-songwriter"].
Proof. vm_compute. reflexivity. Qed.

Lemma main_resolved :
  omap (resolved ucd similarity (__init__ None)
          [py "folk"; py "alternative"; py "folk pop"; py "indie folk";
           py "pop"; py "chamber pop"; py "indie"; py "singer-songwriter"])
    [py "folk"; py "alternative"; py "folk pop"; py "indie folk"; py "pop";
     py "chamber pop"; py "indie"; py "singer-songwriter"] =
  [py "folk"; py "alternative"; py "folk pop"; py "indie folk"; py "pop";
   py "chamber pop"; py "indie"].
Proof using loose_scores.
  pose proof (taxonomy_canonical_nonempty None) as Hne.
  assert (Hin : forall t, bool_decide (t ∈ main_loose_tags) = true ->
                          t ∈ main_loose_tags).
  { intros t. apply bool_decide_eq_true. }
  rewrite (omap_cons_Some _ _ (py "folk"));
    [|apply resolved_exact; [exact Hne|vm_compute; reflexivity]].
  rewrite (omap_cons_Some _ _ (py "alternative"));
    [|apply resolved_exact; [exact Hne|vm_compute; reflexivity]].
  rewrite (omap_cons_Some _ _ (py "folk pop"));
    [|apply resolved_keyword;
      [vm_compute; reflexivity
      |apply loose_tag_no_fuzzy, Hin; vm_compute; reflexivity
      |vm_compute; reflexivity
      |discriminate]].
  rewrite (omap_cons_Some _ _ (py "indie folk"));
    [|apply resolved_keyword;
      [vm_compute; reflexivity
      |apply loose_tag_no_fuzzy, Hin; vm_compute; reflexivity
      |vm_compute; reflexivity
      |discriminate]].
  rewrite (omap_cons_Some _ _ (py "pop"));
    [|apply resolved_exact; [exact Hne|vm_compute; reflexivity]].
  rewrite (omap_cons_Some _ _ (py "chamber pop"));
    [|apply resolved_keyword;
      [vm_compute; reflexivity
      |apply loose_tag_no_fuzzy, Hin; vm_compute; reflexivity
      |vm_compute; reflexivity
      |discriminate]].
  rewrite (omap_cons_Some _ _ (py "indie"));
    [|apply resolved_exact; [exact Hne|vm_compute; reflexivity]].
  rewrite omap_cons_None; [reflexivity|].
  apply resolved_nothing;
    [vm_compute; reflexivity
    |apply loose_tag_no_fuzzy, Hin; vm_compute; reflexivity
    |vm_compute; reflexivity
    |vm_compute; reflexivity].
Qed.
End MainExample.

(** C3 (as amended): on the tags of the usage example, with the default
    configuration and a scorer that brings none of the four tags that are no
    keys within the threshold of a key, the filter drops 2020 and folklore
    (deluxe version), alternative becomes alternative rock, and the output is
    folk, alternative rock, folk pop, indie folk, pop, chamber pop, indie;
    singer-songwriter is resolved by no strategy and is not in it. *)
Theorem main_example_output (ucd : unicode_db)
  (similarity : pystr -> pystr -> Z) :
  scores_below_threshold similarity = true ->
  _filter_non_genres ucd (__init__ None)
    (_clean_tags ucd (__init__ None) main_tags) =
    [py "folk"; py "alternative"; py "folk pop"; py "indie folk"; py "pop";
     py "chamber pop"; py "indie"; py "singer-songwriter"] /\
  extract_genres ucd similarity (__init__ None) main_tags =
    [py "folk"; py "alternative rock"; py "folk pop"; py "indie folk";
     py "pop"; py "chamber pop"; py "indie"].
Proof.
  intros Hlow. split; [apply main_filtered|].
  rewrite extract_genres_stages, main_filtered, resolve_all_omap.
  rewrite (main_resolved ucd similarity Hlow).
  vm_compute. reflexivity.
Qed.

Lemma main_example_output_witness :
  scores_below_threshold lev = true /\
  extract_genres latin1_db lev (__init__ None) main_tags =
    [py "folk"; py "alternative rock"; py "folk pop"; py "indie folk";
     py "pop"; py "chamber pop"; py "indie"].
Proof.
  assert (H : scores_below_threshold lev = true) by (vm_compute; reflexivity).
  split; [exact H|]. exact (proj2 (main_example_output latin1_db lev H)).
Defined.

(** The claim C3 as it stands fails: singer-songwriter passes the filter but
    is not in the output. *)
Lemma main_example_drops_singer_songwriter :
  py "singer-songwriter" ∈
    _filter_non_genres latin1_db (__init__ None)
      (_clean_tags latin1_db (__init__ None) main_tags) /\
  ~ py "singer-songwriter" ∈
      extract_genres latin1_db lev (__init__ None) main_tags.
Proof.
  split; apply (bool_decide_unpack _); vm_compute; exact I.
Qed.

(** ** Witnesses and counterexamples *)

Lemma exact_key_normalized_canonical_witness :
  py "hip hop" ∈ _clean_tags latin1_db (__init__ None) (tags_of ["Hip Hop"]%string) /\
  _normalize_genre_name latin1_db (py "hip-hop") ∈
    extract_genres latin1_db lev (__init__ None) (tags_of ["Hip Hop"]%string).
Proof.
  assert (H1 : py "hip hop" ∈
               _clean_tags latin1_db (__init__ None) (tags_of ["Hip Hop"]%string))
    by (apply (bool_decide_unpack _); vm_compute; exact I).
  split; [exact H1|].
  apply (exact_key_normalized_canonical latin1_db lev None
           (tags_of ["Hip Hop"]%string) (py "hip hop") (py "hip-hop") H1).
  - vm_compute. reflexivity.
  - vm_compute. reflexivity.
Defined.

(** The claim C1 as it stands fails: alternative is a key whose canonical
    name is alternative, and the output holds alternative rock instead. *)
Lemma alternative_is_renamed :
  py "alternative" ∈
    _clean_tags latin1_db (__init__ None) (tags_of ["alternative"]%string) /\
  dict_get (known_genres (__init__ None)) (py "alternative") =
    Some (py "alternative") /\
  extract_genres latin1_db lev (__init__ None) (tags_of ["alternative"]%string) =
    [py "alternative rock"] /\
  ~ py "alternative" ∈
      extract_genres latin1_db lev (__init__ None)
        (tags_of ["alternative"]%string).
Proof.
  split; [apply (bool_decide_unpack _); vm_compute; exact I|].
  split; [vm_compute; reflexivity|].
  split; [vm_compute; reflexivity|].
  apply (bool_decide_unpack _); vm_compute; exact I.
Qed.

Lemma matched_tag_only_by_fuzzy_witness :
  is_non_genre latin1_db (non_genre_patterns (__init__ None)) (py "dubstep")
    = true /\
  py "dubstep" ∉
    _filter_non_genres latin1_db (__init__ None)
      (_clean_tags latin1_db (__init__ None)
         (tags_of ["dubstep"; "dubstp"]%string)) /\
  py "dubstep" ∈ blocked_keys /\
  exists t g,
    t ∈ _filter_non_genres latin1_db (__init__ None)
          (_clean_tags latin1_db (__init__ None)
             (tags_of ["dubstep"; "dubstp"]%string)) /\
    t <> py "dubstep" /\
    dict_get (known_genres (__init__ None)) t = None /\
    _fuzzy_match_genre lev (__init__ None) t = Some g /\
    _normalize_genre_name latin1_db g = py "dubstep".
Proof.
  assert (H1 : is_non_genre latin1_db (non_genre_patterns (__init__ None))
                 (py "dubstep") = true) by (vm_compute; reflexivity).
  assert (H2 : py "dubstep" ∈
                 extract_genres latin1_db lev (__init__ None)
                   (tags_of ["dubstep"; "dubstp"]%string))
    by (apply (bool_decide_unpack _); vm_compute; exact I).
  destruct (matched_tag_only_by_fuzzy latin1_db lev None
              (tags_of ["dubstep"; "dubstp"]%string) (py "dubstep") H1)
    as (Hfiltered & _ & Hout).
  split; [exact H1|]. split; [exact Hfiltered|]. exact (Hout H2).
Defined.

(** The claim C2 as it stands fails: dubstep is matched by the pattern for
    ep and dropped by the filter, and the misspelt dubstp brings it back
    through the fuzzy match. *)
Lemma dubstep_comes_back :
  is_non_genre latin1_db (non_genre_patterns (__init__ None))
    (clean_tag latin1_db (py "dubstep")) = true /\
  lev (py "dubstp") (py "dubstep") = 92%Z /\
  py "dubstep" ∈
    extract_genres latin1_db lev (__init__ None)
      (tags_of ["dubstep"; "dubstp"]%string).
Proof.
  split; [vm_compute; reflexivity|].
  split; [vm_compute; reflexivity|].
  apply (bool_decide_unpack _). vm_compute. exact I.
Qed.

(** C4: the normalizer is to remove what is neither alphanumeric, whitespace
    nor hyphen and to return a trimmed tag; the comment in the source says
    that special characters other than the hyphen are removed. On lo_fi the
    code keeps the underscore, where the described normalizer gives lofi;
    on ! rock it strips before it removes the exclamation mark and returns
    the tag with the leading space that the removal uncovers, where the
    described normalizer gives rock. The anchored decade pattern then
    misses the untrimmed tag: of ! 90s and 90s the filter drops only the
    second. *)
Theorem clean_tags_differs_from_description :
  _clean_tags latin1_db (__init__ None) (tags_of ["lo_fi"]%string) = [py "lo_fi"] /\
  omap (described_clean_entry latin1_db (__init__ None))
    (tags_of ["lo_fi"]%string) = [py "lofi"] /\
  _clean_tags latin1_db (__init__ None) (tags_of ["! rock"]%string) = [py " rock"] /\
  omap (described_clean_entry latin1_db (__init__ None))
    (tags_of ["! rock"]%string) = [py "rock"] /\
  _clean_tags latin1_db (__init__ None) (tags_of ["lo_fi"]%string) <>
  omap (described_clean_entry latin1_db (__init__ None))
    (tags_of ["lo_fi"]%string) /\
  _clean_tags latin1_db (__init__ None) (tags_of ["! rock"]%string) <>
  omap (described_clean_entry latin1_db (__init__ None))
    (tags_of ["! rock"]%string) /\
  _filter_non_genres latin1_db (__init__ None)
    (_clean_tags latin1_db (__init__ None) (tags_of ["! 90s"; "90s"]%string)) =
    [py " 90s"].
Proof.
  split; [vm_compute; reflexivity|].
  split; [vm_compute; reflexivity|].
  split; [vm_compute; reflexivity|].
  split; [vm_compute; reflexivity|].
  split; [vm_compute; discriminate|].
  split; [vm_compute; discriminate|].
  vm_compute. reflexivity.
Qed.

Lemma inert_config_fields_witness :
  extract_genres latin1_db lev (__init__ (Some default_config)) main_tags =
  extract_genres latin1_db lev
    (__init__ (Some {| fuzzy_threshold := 80; min_tag_length := 2;
                       max_tag_length := 50; keyword_threshold := 9 # 10;
                       context_weight := 1 # 10 |})) main_tags.
Proof.
  apply (inert_config_fields latin1_db lev default_config
           {| fuzzy_threshold := 80; min_tag_length := 2;
              max_tag_length := 50; keyword_threshold := 9 # 10;
              context_weight := 1 # 10 |} main_tags);
    reflexivity.
Defined.

(** * Further properties *)

(** ** Substrings *)

Lemma startswith_spec p s :
  startswith p s = true <-> exists post, s = p ++ post.
Proof.
  revert s. induction p as [|x p IH]; intros s; simpl.
  - split; [by exists s|done].
  - destruct s as [|y s].
    + split; [done|]. by intros (post & ?).
    + rewrite andb_true_iff, N.eqb_eq, IH. split.
      * intros (-> & post & ->). by exists post.
      * intros (post & [= -> ->]). split; [done|]. by exists post.
Qed.

Lemma str_in_spec needle hay :
  str_in needle hay = true <-> exists pre post, hay = pre ++ needle ++ post.
Proof.
  induction hay as [|c hay IH].
  - cbn [str_in]. rewrite orb_false_r, startswith_spec. split.
    + intros (post & ->). by exists [], post.
    + intros (pre & post & H). symmetry in H.
      apply app_eq_nil in H as [-> H]. by exists post.
  - cbn [str_in]. rewrite orb_true_iff, startswith_spec, IH. split.
    + intros [(post & ->)|(pre & post & ->)].
      * by exists [], post.
      * by exists (c :: pre), post.
    + intros ([|c' pre] & post & H).
      * left. by exists post.
      * right. injection H as -> ->. by exists pre, post.
Qed.

Lemma str_in_trans a b c :
  str_in a b = true -> str_in b c = true -> str_in a c = true.
Proof.
  rewrite !str_in_spec. intros (p1 & q1 & ->) (p2 & q2 & ->).
  exists (p2 ++ p1), (q1 ++ q2). by rewrite <- !app_assoc.
Qed.

(** ** More on the stages *)

Lemma normalization_values_listed k v :
  normalizations !! k = Some v ->
  v ∈ map py ["hip-hop"; "rnb"; "electronic"; "alternative rock"]%string.
Proof.
  intros Hk%elem_of_list_to_map_2.
  assert (Hall : forallb
            (fun kv => bool_decide
               (snd kv ∈ map py ["hip-hop"; "rnb"; "electronic";
                                 "alternative rock"]%string))
            normalization_table = true) by (vm_compute; reflexivity).
  rewrite forallb_forall in Hall.
  apply list_elem_of_In, Hall in Hk. cbn beta in Hk. cbn [snd] in Hk.
  apply bool_decide_eq_true in Hk. exact Hk.
Qed.

Section NormalizeFacts.
Variable ucd : unicode_db.

Lemma normalization_values_fixed v :
  v ∈ map py ["hip-hop"; "rnb"; "electronic"; "alternative rock"]%string ->
  v <> [] /\ _normalize_genre_name ucd v = v.
Proof.
  intros Hv.
  assert (Hall : forallb
            (fun v => negb (bool_decide (v = [])) &&
                      bool_decide (_normalize_genre_name ucd v = v))
            (map py ["hip-hop"; "rnb"; "electronic";
                     "alternative rock"]%string) = true)
    by (vm_compute; reflexivity).
  rewrite forallb_forall in Hall.
  apply list_elem_of_In, Hall in Hv. cbn beta in Hv.
  apply andb_true_iff in Hv as [H1 H2].
  apply negb_true_iff, bool_decide_eq_false in H1.
  apply bool_decide_eq_true in H2. done.
Qed.

(** X1: the synonym table is applied once and for all: normalizing a
    normalized name changes nothing. *)
Theorem normalize_genre_name_idempotent (genre : pystr) :
  _normalize_genre_name ucd (_normalize_genre_name ucd genre) =
  _normalize_genre_name ucd genre.
Proof.
  destruct (normalize_cases ucd genre) as [(k & Hk)|Hg].
  - apply normalization_values_listed in Hk.
    by apply normalization_values_fixed in Hk as [_ Hk].
  - by rewrite Hg.
Qed.

(** X2: deduplicating a deduplicated list returns it unchanged. *)
Theorem deduplicate_idempotent (genres : list pystr) :
  _deduplicate_and_normalize ucd (_deduplicate_and_normalize ucd genres) =
  _deduplicate_and_normalize ucd genres.
Proof.
  rewrite !deduplicate_first_seen.
  set (l := first_seen (map (_normalize_genre_name ucd) genres)).
  assert (Hfix : map (_normalize_genre_name ucd) l = l).
  { rewrite <- (map_id l) at 2. apply map_ext_in. intros g Hg.
    apply list_elem_of_In, elem_of_first_seen, list_elem_of_fmap in Hg
      as (g0 & -> & _).
    apply normalize_genre_name_idempotent. }
  rewrite Hfix. apply first_seen_NoDup_id, NoDup_first_seen.
Qed.
End NormalizeFacts.

(** X3: no string of the output is empty, whatever the tables of the
    extractor are. *)
Theorem output_never_empty_string (ucd : unicode_db)
  (similarity : pystr -> pystr -> Z) (self : GenreExtractor)
  (tags : list pyobj) :
  Forall (fun g => g <> []) (extract_genres ucd similarity self tags).
Proof.
  apply Forall_forall. intros g (t & r & _ & Hres & ->)%elem_of_extract_genres.
  assert (Hr : r <> []).
  { unfold resolved in Hres.
    by destruct (_extract_genre_from_tag _ _ _ _ _) as [[|c r']|];
      simplify_eq. }
  destruct (normalize_cases ucd r) as [(k & Hk)|Hg].
  - apply normalization_values_listed in Hk.
    by apply (normalization_values_fixed ucd) in Hk as [Hk _].
  - by rewrite Hg.
Qed.

Section CleanFacts.
Variable ucd : unicode_db.
Variable self : GenreExtractor.

Lemma collapse_from_chars b s :
  Forall (fun c => c = 32%N \/ (isspace c = false /\ c ∈ s))
    (collapse_from b s).
Proof.
  revert b. induction s as [|c s IH]; intros b; simpl; [constructor|].
  assert (Hmono : forall l,
            Forall (fun c0 => c0 = 32%N \/ (isspace c0 = false /\ c0 ∈ s)) l ->
            Forall (fun c0 => c0 = 32%N \/
                              (isspace c0 = false /\ c0 ∈ c :: s)) l).
  { intros l Hl. eapply Forall_impl; [exact Hl|].
    intros x [->|[? ?]]; [by left|right].
    split; [done|]. by apply elem_of_cons; right. }
  destruct (isspace c) eqn:Hc.
  - destruct b; simpl; [by apply Hmono|].
    constructor; [by left|by apply Hmono].
  - constructor; [|by apply Hmono].
    right. split; [done|]. by apply elem_of_cons; left.
Qed.

Lemma collapse_from_no_double b s pre post :
  collapse_from b s <> pre ++ [32; 32]%N ++ post /\
  (b = true -> forall rest, collapse_from b s <> 32%N :: rest).
Proof.
  revert b pre. induction s as [|c s IH]; intros b pre; simpl.
  - split; [by destruct pre|done].
  - destruct (isspace c) eqn:Hc.
    + destruct b; simpl.
      * apply IH.
      * split; [|done]. destruct pre as [|x pre]; simpl.
        -- intros [= H]. by apply (proj2 (IH true [])) in H.
        -- intros [= _ H]. by apply (proj1 (IH true pre)) in H.
    + assert (c <> 32%N) by (by intros ->).
      split.
      * destruct pre as [|x pre]; simpl; [by intros [= ? _]|].
        intros [= _ H']. by apply (proj1 (IH false pre)) in H'.
      * intros _ rest [= ? _]. done.
Qed.

Lemma elem_of_remove_special c s :
  c ∈ remove_special ucd s ->
  isword ucd c = true \/ isspace c = true \/ c = 45%N.
Proof.
  unfold remove_special. rewrite list_elem_of_In, filter_In.
  intros [_ H]. rewrite !orb_true_iff, N.eqb_eq in H. tauto.
Qed.

(** X4: every cleaned tag respects the two length bounds, consists of
    spaces, hyphens and word characters only (no other whitespace: no tab,
    no newline) and has no two spaces in a row. *)
Theorem cleaned_tags_shape (tags : list pyobj) :
  Forall
    (fun t =>
       (min_tag_length (config self) <= len t <= max_tag_length (config self))%Z /\
       Forall (fun c => c = 32%N \/
                 (isspace c = false /\ (isword ucd c = true \/ c = 45%N))) t /\
       forall pre post, t <> pre ++ [32; 32]%N ++ post)
    (_clean_tags ucd self tags).
Proof.
  rewrite clean_tags_omap. apply Forall_forall. intros t.
  rewrite list_elem_of_omap. intros ([s| |] & _ & Hs); try done.
  cbn [clean_entry] in Hs. cbv zeta in Hs.
  destruct (bool_decide _) eqn:Hlen; [|done].
  injection Hs as <-. apply bool_decide_eq_true in Hlen.
  split; [done|]. split.
  - unfold normalize_whitespace.
    eapply Forall_impl; [apply collapse_from_chars|].
    intros c [->|[Hc Hin]]; [by left|right]. split; [done|].
    apply elem_of_remove_special in Hin as [?|[?|?]]; [by left|congruence|by right].
  - intros pre post. apply collapse_from_no_double.
Qed.

(** X5: the first two stages work tag by tag: on a concatenation they give
    the concatenation of what they give on the parts. *)
Theorem clean_and_filter_distribute (tags1 tags2 : list pyobj) :
  _clean_tags ucd self (tags1 ++ tags2) =
    _clean_tags ucd self tags1 ++ _clean_tags ucd self tags2 /\
  _filter_non_genres ucd self (_clean_tags ucd self (tags1 ++ tags2)) =
    _filter_non_genres ucd self (_clean_tags ucd self tags1) ++
    _filter_non_genres ucd self (_clean_tags ucd self tags2).
Proof.
  rewrite !filter_non_genres_filter, !clean_tags_omap, omap_app, List.filter_app.
  done.
Qed.
End CleanFacts.

(** ** The patterns of the rule filter *)

Lemma non_genre_words_in_patterns cfg w :
  w ∈ non_genre_words ->
  contains_pattern w ∈ non_genre_patterns (__init__ cfg) /\
  Forall (fun c => (c < 256)%N) w.
Proof.
  intros Hw.
  assert (H : forallb
            (fun w =>
               bool_decide (contains_pattern w ∈
                              non_genre_patterns (__init__ cfg)) &&
               forallb (fun c => (c <? 256)%N) w)
            non_genre_words = true) by (vm_compute; reflexivity).
  rewrite forallb_forall in H. apply list_elem_of_In, H in Hw.
  cbn beta in Hw. apply andb_true_iff in Hw as [H1 H2].
  apply bool_decide_eq_true in H1. split; [exact H1|].
  apply Forall_forall. intros c Hc. rewrite forallb_forall in H2.
  apply list_elem_of_In, H2, N.ltb_lt in Hc. exact Hc.
Qed.

Section PatternFacts.
Variable ucd : unicode_db.

Lemma matches_literals w mid rest b s :
  Forall2 (fun p c => ilit ucd p c = true) w mid ->
  (forall b', matches_at ucd rest b' s) ->
  matches_at ucd (map (fun c => IAtom (CLit c) QOne) w ++ rest) b (mid ++ s).
Proof.
  intros Hw Hrest. revert b.
  induction Hw as [|p c w' mid' Hpc _ IH]; intros b; simpl.
  - apply Hrest.
  - apply (matches_atom ucd (CLit p) QOne _ b [c] (mid' ++ s)).
    + by repeat constructor.
    + done.
    + apply IH.
Qed.

Lemma matches_contains w pre mid post b :
  Forall (fun c => c <> 10%N) pre ->
  Forall2 (fun p c => ilit ucd p c = true) w mid ->
  matches_at ucd (contains_pattern w) b (pre ++ mid ++ post).
Proof.
  intros Hpre Hmid. unfold contains_pattern.
  apply matches_atom.
  - eapply Forall_impl; [exact Hpre|]. intros c Hc. simpl.
    by apply negb_true_iff, N.eqb_neq.
  - done.
  - apply matches_literals; [done|]. intros b'.
    apply (matches_atom ucd CAny QStar [] b' [] post); [constructor|done|].
    constructor.
Qed.

Lemma ilit_refl_latin1 w :
  Forall (fun c => (c < 256)%N) w ->
  Forall2 (fun p c => ilit ucd p c = true) w w.
Proof.
  induction 1 as [|c w Hc _ IH]; constructor; [|done].
  unfold ilit. apply N.ltb_lt in Hc. rewrite Hc. apply N.eqb_refl.
Qed.

(** X6: a tag without a newline that contains one of the words of the
    patterns is a non-genre for the rule filter, wherever the word stands
    in it: inside a longer word too. *)
Theorem word_anywhere_is_non_genre (cfg : option GenreExtractionConfig)
  (w tag : pystr) :
  w ∈ non_genre_words ->
  Forall (fun c => c <> 10%N) tag ->
  str_in w tag = true ->
  is_non_genre ucd (non_genre_patterns (__init__ cfg)) tag = true.
Proof.
  intros Hw Hnl (pre & post & ->)%str_in_spec.
  apply (non_genre_words_in_patterns cfg) in Hw as [Hp H256].
  apply is_non_genre_spec. exists (contains_pattern w). split; [exact Hp|].
  apply matches_contains; [|by apply ilit_refl_latin1].
  by apply Forall_app in Hnl as [Hnl _].
Qed.

(** X7: no tag that reaches the resolver contains one of the words of the
    patterns. *)
Theorem resolver_sees_no_pattern_word (cfg : option GenreExtractionConfig)
  (tags : list pyobj) (t w : pystr) :
  t ∈ _filter_non_genres ucd (__init__ cfg)
        (_clean_tags ucd (__init__ cfg) tags) ->
  w ∈ non_genre_words ->
  str_in w t = false.
Proof.
  intros [Ht Hclear]%elem_of_filter_non_genres Hw.
  destruct (str_in w t) eqn:Hin; [|done].
  pose proof (cleaned_tags_shape ucd (__init__ cfg) tags) as Hshape.
  rewrite Forall_forall in Hshape. apply Hshape in Ht as (_ & Hchars & _).
  rewrite (word_anywhere_is_non_genre cfg w t Hw) in Hclear; [done| |done].
  eapply Forall_impl; [exact Hchars|]. intros c [->|[Hc _]]; [done|].
  by intros ->.
Qed.

(** X8: the decade pattern matches exactly two decimal digits followed by
    an s or S, and the year pattern four decimal digits with an optional s;
    both allow one newline at the end and nothing else. *)
Theorem decade_and_year_patterns (t : pystr) :
  let decade := [IBol; IAtom CDigit (QRep 2); IAtom (CLit 115) QOne; IEol] in
  let year := [IBol; IAtom CDigit (QRep 4); IAtom (CLit 115) QOpt; IEol] in
  re_compile "^\d{2}s$" = Some decade /\
  re_compile "^\d{4}s?$" = Some year /\
  (re_match ucd decade t = true <->
   exists d1 d2 c nl,
     t = [d1; d2; c] ++ nl /\ (nl = [] \/ nl = [10%N]) /\
     isdecimal ucd d1 = true /\ isdecimal ucd d2 = true /\
     ilit ucd 115 c = true) /\
  (re_match ucd year t = true <->
   exists d1 d2 d3 d4 s nl,
     t = [d1; d2; d3; d4] ++ s ++ nl /\ (nl = [] \/ nl = [10%N]) /\
     isdecimal ucd d1 = true /\ isdecimal ucd d2 = true /\
     isdecimal ucd d3 = true /\ isdecimal ucd d4 = true /\
     (s = [] \/ exists c, s = [c] /\ ilit ucd 115 c = true)).
Proof.
  cbv zeta. split; [reflexivity|]. split; [reflexivity|].
  rewrite !re_match_spec. split.
  - split.
    + inversion 1 as [|? ? H1| |]; subst.
      inversion H1 as [| | |? ? ? ? r1 s1 Hr1 Hq1 H2]; subst.
      inversion H2 as [| | |? ? ? ? r2 s2 Hr2 Hq2 H3]; subst.
      inversion H3 as [| |? ? ? Heol _|]; subst.
      simpl in Hq1, Hq2.
      destruct r1 as [|d1 [|d2 [|? ?]]]; try done.
      destruct r2 as [|c [|? ?]]; try done.
      apply Forall_cons in Hr1 as [Hd1 [Hd2 _]%Forall_cons].
      apply Forall_cons in Hr2 as [Hc _].
      exists d1, d2, c, s2. done.
    + intros (d1 & d2 & c & nl & -> & Hnl & Hd1 & Hd2 & Hc).
      constructor.
      apply (matches_atom ucd CDigit (QRep 2) _ true [d1; d2] ([c] ++ nl));
        [by repeat constructor|done|].
      apply (matches_atom ucd (CLit 115) QOne _ _ [c] nl);
        [by repeat constructor|done|].
      constructor; [done|constructor].
  - split.
    + inversion 1 as [|? ? H1| |]; subst.
      inversion H1 as [| | |? ? ? ? r1 s1 Hr1 Hq1 H2]; subst.
      inversion H2 as [| | |? ? ? ? r2 s2 Hr2 Hq2 H3]; subst.
      inversion H3 as [| |? ? ? Heol _|]; subst.
      simpl in Hq1, Hq2.
      destruct r1 as [|d1 [|d2 [|d3 [|d4 [|? ?]]]]]; try done.
      apply Forall_cons in Hr1 as [Hd1 [Hd2 [Hd3 [Hd4 _]%Forall_cons]%Forall_cons]%Forall_cons].
      exists d1, d2, d3, d4, r2, s2. split_and!; try done.
      destruct r2 as [|c [|? ?]]; simpl in Hq2; [by left| |lia].
      right. exists c. by apply Forall_cons in Hr2 as [Hc _].
    + intros (d1 & d2 & d3 & d4 & s & nl & -> & Hnl & Hd1 & Hd2 & Hd3 & Hd4 & Hs).
      constructor.
      apply (matches_atom ucd CDigit (QRep 4) _ true [d1; d2; d3; d4] (s ++ nl));
        [by repeat constructor|done|].
      apply (matches_atom ucd (CLit 115) QOpt _ _ s nl).
      * destruct Hs as [->|(c & -> & Hc)]; by repeat constructor.
      * destruct Hs as [->|(c & -> & Hc)]; simpl; lia.
      * constructor; [done|constructor].
Qed.
End PatternFacts.

(** ** The strategies of the resolver *)

Lemma existsb_filter_out {A} (f p : A -> bool) (l : list A) :
  (forall x, x ∈ l -> p x = false -> f x = false) ->
  existsb f (List.filter p l) = existsb f l.
Proof.
  intros H. induction l as [|x l IH]; simpl; [done|].
  assert (IH' : existsb f (List.filter p l) = existsb f l).
  { apply IH. intros y Hy. apply H. by right. }
  destruct (p x) eqn:Hp; simpl.
  - by rewrite IH'.
  - rewrite IH'. rewrite (H x); [done|by left|done].
Qed.

Section KeywordFacts.
Variable ucd : unicode_db.

(** The two loops of the keyword strategy are independent. *)
Lemma keywords_factor (self : GenreExtractor) (tag : pystr) :
  _is_genre_by_keywords ucd self tag =
  existsb (fun k => str_in k (lower ucd tag)) (genre_keywords self) &&
  negb (existsb (fun ng => str_in ng (lower ucd tag))
          (non_genre_keywords self)).
Proof.
  unfold _is_genre_by_keywords.
  set (clean := negb (existsb (fun ng => str_in ng (lower ucd tag))
                        (non_genre_keywords self))).
  clearbody clean.
  induction (genre_keywords self) as [|k ks IH]; cbn [existsb]; [done|].
  rewrite IH. by rewrite andb_orb_distrib_l.
Qed.

Lemma shadowed_contain_non_genre cfg k :
  k ∈ genre_keywords (__init__ cfg) ->
  bool_decide (k ∈ shadowed_keywords) = true ->
  exists ng, ng ∈ non_genre_keywords (__init__ cfg) /\ str_in ng k = true.
Proof.
  intros Hk Hs.
  assert (H : forallb
            (fun k => negb (bool_decide (k ∈ shadowed_keywords)) ||
                      existsb (fun ng => str_in ng k)
                        (non_genre_keywords (__init__ cfg)))
            (genre_keywords (__init__ cfg)) = true)
    by (vm_compute; reflexivity).
  rewrite forallb_forall in H. apply list_elem_of_In, H in Hk.
  cbn beta in Hk. rewrite Hs in Hk. cbn [negb orb] in Hk.
  apply existsb_exists in Hk as (ng & Hng & Hin).
  exists ng. by rewrite list_elem_of_In.
Qed.

(** X9: eleven of the genre keywords contain a non-genre keyword (step
    contains ep, disco contains disc, ...), so a tag that holds one of them
    is rejected by the same test; taking them out of the list changes the
    keyword strategy on no tag. *)
Theorem shadowed_keywords_never_decide (cfg : option GenreExtractionConfig)
  (tag : pystr) :
  _is_genre_by_keywords ucd
    (with_genre_keywords (__init__ cfg)
       (List.filter (fun k => negb (bool_decide (k ∈ shadowed_keywords)))
          (genre_keywords (__init__ cfg))))
    tag =
  _is_genre_by_keywords ucd (__init__ cfg) tag.
Proof.
  rewrite !keywords_factor.
  change (non_genre_keywords (with_genre_keywords (__init__ cfg) _))
    with (non_genre_keywords (__init__ cfg)).
  change (genre_keywords (with_genre_keywords (__init__ cfg) ?l)) with l.
  destruct (existsb (fun ng => str_in ng (lower ucd tag))
              (non_genre_keywords (__init__ cfg))) eqn:Hng.
  { by rewrite !andb_false_r. }
  f_equal. apply existsb_filter_out. intros k Hk Hs.
  apply negb_false_iff in Hs.
  destruct (shadowed_contain_non_genre cfg k Hk Hs) as (ng & Hng1 & Hng2).
  destruct (str_in k (lower ucd tag)) eqn:Hin; [|done].
  assert (existsb (fun ng => str_in ng (lower ucd tag))
            (non_genre_keywords (__init__ cfg)) = true); [|congruence].
  apply existsb_exists. exists ng. split; [by apply list_elem_of_In|].
  by eapply str_in_trans.
Qed.

Lemma known_count_mono (self : GenreExtractor) (l1 l2 : list pystr) :
  l1 ⊆+ l2 ->
  (length (List.filter
             (fun t => bool_decide (is_Some (dict_get (known_genres self) t)))
             l1) <=
   length (List.filter
             (fun t => bool_decide (is_Some (dict_get (known_genres self) t)))
             l2))%nat.
Proof.
  induction 1 as [|x l1 l2 _ IH|x y l|x l1 l2 _ IH|l1 l2 l3 _ IH1 _ IH2];
    simpl.
  - lia.
  - destruct (bool_decide _); simpl; lia.
  - destruct (bool_decide _), (bool_decide _); simpl; lia.
  - destruct (bool_decide _); simpl; lia.
  - lia.
Qed.

(** X10: the context strategy only counts the taxonomy keys among the other
    tags: what it accepts in one context it accepts in every context that
    holds the same tags and more, in any order. *)
Theorem context_monotone (self : GenreExtractor) (tag : pystr)
  (all_tags all_tags' : list pystr) :
  all_tags ⊆+ all_tags' ->
  _is_genre_by_context ucd self tag all_tags = true ->
  _is_genre_by_context ucd self tag all_tags' = true.
Proof.
  intros Hsub. unfold _is_genre_by_context. cbv zeta.
  pose proof (known_count_mono self _ _ Hsub) as Hle.
  set (key := fun t => bool_decide (is_Some (dict_get (known_genres self) t)))
    in *.
  destruct (Nat.leb_spec 2 (length (List.filter key all_tags))); [|done].
  destruct (Nat.leb_spec 2 (length (List.filter key all_tags'))); [done|lia].
Qed.

(** With fewer than two tags in the context the context strategy accepts
    nothing. *)
Lemma context_needs_two_keys (self : GenreExtractor) (tag : pystr)
  (all_tags : list pystr) :
  (length all_tags < 2)%nat ->
  _is_genre_by_context ucd self tag all_tags = false.
Proof.
  intros Hlen. unfold _is_genre_by_context. cbv zeta.
  pose proof (filter_length_le'
                (fun t => bool_decide (is_Some (dict_get (known_genres self) t)))
                all_tags) as Hle.
  set (key := fun t => bool_decide (is_Some (dict_get (known_genres self) t)))
    in *.
  destruct (Nat.leb_spec 2 (length (List.filter key all_tags))); [lia|done].
Qed.
End KeywordFacts.

Section FuzzyFacts.
Variable similarity : pystr -> pystr -> Z.

Lemma max_by_score_first best query choices :
  let r := max_by_score best (extractWithoutOrder similarity query choices) in
  r = best \/
  exists pre post,
    choices = pre ++ fst r :: post /\ snd r = similarity query (fst r) /\
    (snd best < snd r)%Z /\ (0 <= snd r)%Z /\
    forall c', c' ∈ pre -> (similarity query c' < snd r)%Z.
Proof.
  cbv zeta. revert best. induction choices as [|c cs IH]; intros best.
  - by left.
  - unfold extractWithoutOrder. cbn [map List.filter snd].
    fold (extractWithoutOrder similarity query cs).
    destruct (Z.leb_spec 0 (similarity query c)) as [Hpos|Hneg].
    + cbn [max_by_score snd].
      destruct (Z.ltb_spec (snd best) (similarity query c)) as [Hlt|Hge].
      * destruct (IH (c, similarity query c))
          as [Hr|(pre & post & Hcs & Hsc & Hlt' & H0 & Hpre)].
        -- right. rewrite Hr. exists [], cs. cbn [fst snd app].
           split; [done|]. split; [done|]. split; [done|]. split; [done|].
           by intros c' ?%elem_of_nil.
        -- right. exists (c :: pre), post. cbn [fst snd] in Hlt'.
           split; [simpl; f_equal; exact Hcs|]. split; [exact Hsc|].
           split; [lia|]. split; [exact H0|].
           intros c' [->|Hc']%elem_of_cons; [done|by apply Hpre].
      * destruct (IH best) as [Hr|(pre & post & Hcs & Hsc & Hlt' & H0 & Hpre)].
        -- by left.
        -- right. exists (c :: pre), post.
           split; [simpl; f_equal; exact Hcs|]. split; [exact Hsc|].
           split; [exact Hlt'|]. split; [exact H0|].
           intros c' [->|Hc']%elem_of_cons; [lia|by apply Hpre].
    + destruct (IH best) as [Hr|(pre & post & Hcs & Hsc & Hlt' & H0 & Hpre)].
      * by left.
      * right. exists (c :: pre), post.
        split; [simpl; f_equal; exact Hcs|]. split; [exact Hsc|].
        split; [exact Hlt'|]. split; [exact H0|].
        intros c' [->|Hc']%elem_of_cons; [lia|by apply Hpre].
Qed.

(** X11: among the choices of the highest score [extractOne] returns the
    first one: every choice that stands before the returned one has a
    strictly lower score. *)
Theorem extractOne_first_best (query : pystr) (choices : list pystr)
  (c : pystr) (sc : Z) :
  extractOne similarity query choices = Some (c, sc) ->
  exists pre post,
    choices = pre ++ c :: post /\ sc = similarity query c /\
    forall c', c' ∈ pre -> (similarity query c' < sc)%Z.
Proof.
  revert c sc. induction choices as [|c0 cs IH]; intros c sc; [done|].
  unfold extractOne, extractWithoutOrder. cbn [map List.filter snd].
  fold (extractWithoutOrder similarity query cs).
  destruct (Z.leb_spec 0 (similarity query c0)) as [Hpos|Hneg].
  - intros [= Hr].
    destruct (max_by_score_first (c0, similarity query c0) query cs)
      as [Hb|(pre & post & Hcs & Hsc & Hlt & _ & Hpre)];
      rewrite Hr in *.
    + injection Hb as -> ->. exists [], cs.
      split; [done|]. split; [done|]. by intros c' ?%elem_of_nil.
    + cbn [fst snd] in *. exists (c0 :: pre), post.
      split; [simpl; f_equal; exact Hcs|]. split; [exact Hsc|].
      intros c' [->|Hc']%elem_of_cons; [lia|by apply Hpre].
  - intros Hone.
    assert (Hone' : extractOne similarity query cs = Some (c, sc))
      by exact Hone.
    pose proof (extractOne_Some _ _ _ _ _ Hone') as (_ & _ & H0 & _).
    destruct (IH _ _ Hone') as (pre & post & Hcs & Hsc & Hpre).
    exists (c0 :: pre), post.
    split; [simpl; f_equal; exact Hcs|]. split; [exact Hsc|].
    intros c' [->|Hc']%elem_of_cons; [lia|by apply Hpre].
Qed.

(** X12: lowering the fuzzy threshold never loses a fuzzy match, and the
    match stays the same. *)
Theorem fuzzy_match_threshold_monotone (self : GenreExtractor)
  (thr1 thr2 : Z) (tag g : pystr) :
  (thr1 <= thr2)%Z ->
  _fuzzy_match_genre similarity (with_fuzzy_threshold self thr2) tag = Some g ->
  _fuzzy_match_genre similarity (with_fuzzy_threshold self thr1) tag = Some g.
Proof.
  intros Hle. rewrite !fuzzy_match_Some. simpl.
  intros (k & sc & Hone & Hthr & Hg). exists k, sc. split_and!; [done|lia|done].
Qed.
End FuzzyFacts.

(** ** The pipeline as a whole *)

Section WholePipeline.
Variable ucd : unicode_db.

(** X13: a taxonomy key given as the only tag comes back as the normalized
    form of its canonical name, whatever the scorer, unless it is one of the
    four keys that a non-genre pattern matches (dubstep, chillwave,
    americana, dancehall): these give nothing. *)
Theorem taxonomy_key_alone (similarity : pystr -> pystr -> Z) (k g : pystr) :
  dict_get (known_genres (__init__ None)) k = Some g ->
  extract_genres ucd similarity (__init__ None) [PyStr k] =
    if bool_decide (k ∈ blocked_keys) then []
    else [_normalize_genre_name ucd g].
Proof.
  intros Hk%dict_get_Some_elem.
  assert (H : forallb
            (fun kv =>
               bool_decide
                 (extract_genres ucd similarity (__init__ None) [PyStr (fst kv)] =
                  if bool_decide (fst kv ∈ blocked_keys) then []
                  else [_normalize_genre_name ucd (snd kv)]))
            (known_genres (__init__ None)) = true)
    by (vm_compute; reflexivity).
  rewrite forallb_forall in H. apply list_elem_of_In, H in Hk.
  cbn beta in Hk. cbn [fst snd] in Hk.
  apply bool_decide_eq_true in Hk. exact Hk.
Qed.

Lemma clean_entry_same_lower (self : GenreExtractor) (a b : pyobj) :
  same_lower ucd a b -> clean_entry ucd self a = clean_entry ucd self b.
Proof.
  destruct a as [s1| |], b as [s2| |]; simpl; try done.
  by intros ->.
Qed.

(** X14: the case of the letters of the input never matters: two inputs
    whose entries have the same lower-casing give the same output. *)
Theorem input_case_is_irrelevant (similarity : pystr -> pystr -> Z)
  (self : GenreExtractor) (tags1 tags2 : list pyobj) :
  Forall2 (same_lower ucd) tags1 tags2 ->
  extract_genres ucd similarity self tags1 =
  extract_genres ucd similarity self tags2.
Proof.
  intros Hsame. rewrite !extract_genres_stages.
  assert (Hclean : _clean_tags ucd self tags1 = _clean_tags ucd self tags2).
  { rewrite !clean_tags_omap.
    induction Hsame as [|a b l1 l2 Hab _ IH]; [done|].
    cbn. rewrite (clean_entry_same_lower self a b Hab).
    destruct (clean_entry ucd self b); by rewrite IH. }
  by rewrite Hclean.
Qed.

Lemma extractOne_ext (sim1 sim2 : pystr -> pystr -> Z) query choices :
  (forall c, c ∈ choices -> sim1 query c = sim2 query c) ->
  extractOne sim1 query choices = extractOne sim2 query choices.
Proof.
  intros Heq. unfold extractOne, extractWithoutOrder.
  assert (Hmap : map (fun choice => (choice, sim1 query choice)) choices =
                 map (fun choice => (choice, sim2 query choice)) choices).
  { apply map_ext_in. intros c Hc%list_elem_of_In. by rewrite Heq. }
  by rewrite Hmap.
Qed.

(** X15: the scorer is consulted only for tags that passed the filter and
    are no taxonomy keys, against the taxonomy keys: two scorers that agree
    there give the same output. *)
Theorem scorer_only_for_unknown_tags (sim1 sim2 : pystr -> pystr -> Z)
  (self : GenreExtractor) (tags : list pyobj) :
  (forall t k,
      t ∈ _filter_non_genres ucd self (_clean_tags ucd self tags) ->
      dict_get (known_genres self) t = None ->
      k ∈ dict_keys (known_genres self) ->
      sim1 t k = sim2 t k) ->
  extract_genres ucd sim1 self tags = extract_genres ucd sim2 self tags.
Proof.
  intros Hagree. rewrite !extract_genres_stages, !resolve_all_omap.
  set (filtered := _filter_non_genres ucd self (_clean_tags ucd self tags))
    in *.
  f_equal. apply list_omap_ext. apply Forall2_same_length_lookup_2; [done|].
  intros i t t' Ht Ht'. assert (t' = t) as -> by congruence.
  apply list_elem_of_lookup_2 in Ht.
  unfold resolved, _extract_genre_from_tag.
  destruct (dict_get (known_genres self) t) eqn:Hk; [done|]. cbv zeta.
  assert (Hf : _fuzzy_match_genre sim1 self t = _fuzzy_match_genre sim2 self t).
  { unfold _fuzzy_match_genre.
    rewrite (extractOne_ext sim1 sim2); [done|].
    intros k Hkeys. by apply Hagree. }
  by rewrite Hf.
Qed.

(** X16: on a cleaned tag the punctuation test of the classification by
    shape never fires: the tag is accepted exactly when it has at most 20
    characters and either at most two words or a hyphen. *)
Theorem shape_classification_of_cleaned (self : GenreExtractor)
  (tags : list pyobj) (t : pystr) :
  t ∈ _clean_tags ucd self tags ->
  _character_based_classification t =
    (len t <=? 20)%Z &&
    ((split_count t <=? 2)%nat || (0 <? count_char 45%N t)%nat).
Proof.
  intros Ht.
  pose proof (cleaned_tags_shape ucd self tags) as Hshape.
  rewrite Forall_forall in Hshape. apply Hshape in Ht as (_ & Hchars & _).
  unfold _character_based_classification.
  rewrite Z.ltb_antisym. destruct (len t <=? 20)%Z; [|done]. cbn [negb andb].
  assert (Hnone : existsb (fun char => str_in char t)
                    (map py ["!"; "?"; "#"; "@"]%string) = false).
  { apply not_true_iff_false. intros (p & Hp & Hin)%existsb_exists.
    apply str_in_spec in Hin as (pre & post & ->).
    apply Forall_app in Hchars as [_ Hchars].
    assert (Hbad : forallb
              (fun p => match p with
                        | [c] => negb (isspace c) && negb (isword ucd c) &&
                                 negb (c =? 45)%N && negb (c =? 32)%N
                        | _ => false
                        end)
              (map py ["!"; "?"; "#"; "@"]%string) = true)
      by (vm_compute; reflexivity).
    rewrite forallb_forall in Hbad. apply Hbad in Hp.
    destruct p as [|c [|? ?]]; try done.
    apply Forall_app in Hchars as [[Hc _]%Forall_cons _].
    rewrite !andb_true_iff, !negb_true_iff, !N.eqb_neq in Hp.
    destruct Hp as [[[_ Hw] H45] H32].
    destruct Hc as [?|[_ [?|?]]]; congruence. }
  rewrite Hnone. cbv zeta.
  by destruct ((split_count t <=? 2)%nat || (0 <? count_char 45%N t)%nat).
Qed.
End WholePipeline.

(** ** twoSum *)

Lemma twoSum_from_spec (seen rest : list Z) (num : gmap Z nat) (target : Z) :
  (forall v j, num !! v = Some j -> seen !! j = Some v) ->
  (forall j v, seen !! j = Some v -> is_Some (num !! v)) ->
  (forall j i a b, (j < i)%nat -> seen !! j = Some a -> seen !! i = Some b ->
                   (a + b)%Z <> target) ->
  (twoSum_from num (length seen) rest target = [] /\
   forall j i a b, (j < i)%nat -> (seen ++ rest) !! j = Some a ->
                   (seen ++ rest) !! i = Some b -> (a + b)%Z <> target) \/
  (exists j i a b,
      twoSum_from num (length seen) rest target = [j; i] /\
      (j < i)%nat /\ (seen ++ rest) !! j = Some a /\
      (seen ++ rest) !! i = Some b /\ (a + b)%Z = target /\
      forall j' i' a' b', (j' < i')%nat -> (i' < i)%nat ->
                          (seen ++ rest) !! j' = Some a' ->
                          (seen ++ rest) !! i' = Some b' ->
                          (a' + b')%Z <> target).
Proof.
  revert seen num. induction rest as [|x rest IH]; intros seen num H1 H2 H3.
  - left. rewrite app_nil_r. by split.
  - cbn [twoSum_from].
    destruct (num !! (target - x)%Z) as [j|] eqn:Hj.
    + right. exists j, (length seen), (target - x)%Z, x.
      pose proof (H1 _ _ Hj) as Hseen.
      pose proof (lookup_lt_Some _ _ _ Hseen) as Hlt.
      split; [done|]. split; [done|].
      split; [by apply lookup_app_l_Some|].
      split; [by apply list_lookup_middle|].
      split; [lia|].
      intros j' i' a' b' Hji Hi Ha Hb.
      rewrite lookup_app_l in Ha by lia. rewrite lookup_app_l in Hb by lia.
      exact (H3 j' i' a' b' Hji Ha Hb).
    + replace (S (length seen)) with (length (seen ++ [x]))
        by (rewrite length_app; simpl; lia).
      replace (seen ++ x :: rest) with ((seen ++ [x]) ++ rest)
        by (by rewrite <- app_assoc).
      apply IH.
      * intros v j Hv. destruct (decide (x = v)) as [->|Hne].
        -- rewrite lookup_insert_eq in Hv. injection Hv as <-.
           by apply list_lookup_middle.
        -- rewrite lookup_insert_ne in Hv by done.
           by apply lookup_app_l_Some, H1.
      * intros j v Hv. destruct (decide (x = v)) as [->|Hne].
        -- rewrite lookup_insert_eq. by eexists.
        -- rewrite lookup_insert_ne by done.
           apply lookup_app_Some in Hv as [Hv|[_ Hv]]; [by eapply H2|].
           destruct (j - length seen)%nat as [|n]; simpl in Hv; [|done].
           congruence.
      * intros j i a b Hji Ha Hb.
        apply lookup_app_Some in Hb as [Hb|[Hlen Hb]].
        -- pose proof (lookup_lt_Some _ _ _ Hb).
           rewrite lookup_app_l in Ha by lia.
           exact (H3 j i a b Hji Ha Hb).
        -- destruct (i - length seen)%nat as [|n] eqn:Hi; simpl in Hb;
             [|done].
           injection Hb as <-.
           rewrite lookup_app_l in Ha by lia.
           apply H2 in Ha as [j0 Hj0]. intros Hsum.
           assert (a = (target - x)%Z) as -> by lia. congruence.
Qed.

(** X17: [twoSum] returns either the empty list, when no two entries at
    different positions add up to the target, or two indices [j < i] of
    entries that do; in that case no pair that ends before [i] adds up to
    the target. *)
Theorem twoSum_spec (nums : list Z) (target : Z) :
  (twoSum nums target = [] /\
   forall j i a b, (j < i)%nat -> nums !! j = Some a -> nums !! i = Some b ->
                   (a + b)%Z <> target) \/
  (exists j i a b,
      twoSum nums target = [j; i] /\
      (j < i)%nat /\ nums !! j = Some a /\ nums !! i = Some b /\
      (a + b)%Z = target /\
      forall j' i' a' b', (j' < i')%nat -> (i' < i)%nat ->
                          nums !! j' = Some a' -> nums !! i' = Some b' ->
                          (a' + b')%Z <> target).
Proof.
  apply (twoSum_from_spec [] nums ∅ target).
  - intros v j Hv. by rewrite lookup_empty in Hv.
  - intros j v Hv. by rewrite lookup_nil in Hv.
  - intros j i a b _ Ha. by rewrite lookup_nil in Ha.
Qed.

(** X18: [twoSum] returns the empty list exactly when no two entries at
    different positions add up to the target. *)
Theorem twoSum_empty_iff (nums : list Z) (target : Z) :
  twoSum nums target = [] <->
  forall j i a b, (j < i)%nat -> nums !! j = Some a -> nums !! i = Some b ->
                  (a + b)%Z <> target.
Proof.
  destruct (twoSum_from_spec [] nums ∅ target)
    as [[Hnil Hno]|(j & i & a & b & Hres & Hji & Ha & Hb & Hsum & _)].
  - intros v j Hv. by rewrite lookup_empty in Hv.
  - intros j v Hv. by rewrite lookup_nil in Hv.
  - intros j i a b _ Ha. by rewrite lookup_nil in Ha.
  - split; [intros _; exact Hno|intros _; exact Hnil].
  - change (twoSum_from ∅ (length []) nums target) with (twoSum nums target)
      in Hres.
    split; [by rewrite Hres|]. intros Hno. exfalso.
    exact (Hno j i a b Hji Ha Hb Hsum).
Qed.

(** X19: entries of the input that are not strings are ignored: taking them
    out of the input changes nothing. *)
Theorem non_strings_are_ignored (ucd : unicode_db)
  (similarity : pystr -> pystr -> Z) (self : GenreExtractor)
  (tags : list pyobj) :
  extract_genres ucd similarity self (List.filter isinstance_str tags) =
  extract_genres ucd similarity self tags.
Proof.
  rewrite !extract_genres_stages. do 3 f_equal.
  rewrite !clean_tags_omap.
  induction tags as [|[s| |] tags IH]; [done|cbn|cbn|cbn]; try exact IH.
  destruct (clean_entry ucd self (PyStr s)); by rewrite IH.
Qed.

(** ** Witnesses *)

Lemma word_anywhere_is_non_genre_witness :
  py "ep" ∈ non_genre_words /\
  Forall (fun c => c <> 10%N) (py "deep house") /\
  str_in (py "ep") (py "deep house") = true /\
  is_non_genre latin1_db (non_genre_patterns (__init__ None))
    (py "deep house") = true.
Proof.
  assert (H1 : py "ep" ∈ non_genre_words)
    by (apply (bool_decide_unpack _); vm_compute; exact I).
  assert (H2 : Forall (fun c => c <> 10%N) (py "deep house"))
    by (apply (bool_decide_unpack _); vm_compute; exact I).
  assert (H3 : str_in (py "ep") (py "deep house") = true)
    by (vm_compute; reflexivity).
  split; [exact H1|]. split; [exact H2|]. split; [exact H3|].
  exact (word_anywhere_is_non_genre latin1_db None _ _ H1 H2 H3).
Defined.

Lemma resolver_sees_no_pattern_word_witness :
  py "synth pop" ∈
    _filter_non_genres latin1_db (__init__ None)
      (_clean_tags latin1_db (__init__ None)
         (tags_of ["Synth Pop"; "live"]%string)) /\
  py "live" ∈ non_genre_words /\
  str_in (py "live") (py "synth pop") = false.
Proof.
  assert (H1 : py "synth pop" ∈
                 _filter_non_genres latin1_db (__init__ None)
                   (_clean_tags latin1_db (__init__ None)
                      (tags_of ["Synth Pop"; "live"]%string)))
    by (apply (bool_decide_unpack _); vm_compute; exact I).
  assert (H2 : py "live" ∈ non_genre_words)
    by (apply (bool_decide_unpack _); vm_compute; exact I).
  split; [exact H1|]. split; [exact H2|].
  exact (resolver_sees_no_pattern_word latin1_db None _ _ _ H1 H2).
Defined.

Lemma context_monotone_witness :
  [py "rock"; py "jazz"] ⊆+ [py "pop"; py "jazz"; py "rock"] /\
  _is_genre_by_context latin1_db (__init__ None) (py "rap")
    [py "rock"; py "jazz"] = true /\
  _is_genre_by_context latin1_db (__init__ None) (py "rap")
    [py "pop"; py "jazz"; py "rock"] = true.
Proof.
  assert (H1 : [py "rock"; py "jazz"] ⊆+ [py "pop"; py "jazz"; py "rock"]).
  { apply submseteq_cons. apply Permutation_submseteq, perm_swap. }
  assert (H2 : _is_genre_by_context latin1_db (__init__ None) (py "rap")
                 [py "rock"; py "jazz"] = true) by (vm_compute; reflexivity).
  split; [exact H1|]. split; [exact H2|].
  exact (context_monotone latin1_db (__init__ None) _ _ _ H1 H2).
Defined.

Lemma extractOne_first_best_witness :
  extractOne lev (py "hip hop") [py "rock"; py "hip-hop"; py "hip hop"] =
    Some (py "hip-hop", 100%Z) /\
  exists pre post,
    [py "rock"; py "hip-hop"; py "hip hop"] = pre ++ py "hip-hop" :: post /\
    100%Z = lev (py "hip hop") (py "hip-hop") /\
    forall c', c' ∈ pre -> (lev (py "hip hop") c' < 100)%Z.
Proof.
  assert (H1 : extractOne lev (py "hip hop")
                 [py "rock"; py "hip-hop"; py "hip hop"] =
               Some (py "hip-hop", 100%Z)) by (vm_compute; reflexivity).
  split; [exact H1|].
  exact (extractOne_first_best lev _ _ _ _ H1).
Defined.

Lemma fuzzy_match_threshold_monotone_witness :
  (80 <= 90)%Z /\
  _fuzzy_match_genre lev (with_fuzzy_threshold (__init__ None) 90)
    (py "dubstp") = Some (py "dubstep") /\
  _fuzzy_match_genre lev (with_fuzzy_threshold (__init__ None) 80)
    (py "dubstp") = Some (py "dubstep").
Proof.
  assert (H1 : (80 <= 90)%Z) by lia.
  assert (H2 : _fuzzy_match_genre lev (with_fuzzy_threshold (__init__ None) 90)
                 (py "dubstp") = Some (py "dubstep"))
    by (vm_compute; reflexivity).
  split; [exact H1|]. split; [exact H2|].
  exact (fuzzy_match_threshold_monotone lev (__init__ None) 80 90 _ _ H1 H2).
Defined.

Lemma taxonomy_key_alone_witness :
  dict_get (known_genres (__init__ None)) (py "dnb") =
    Some (py "drum and bass") /\
  extract_genres latin1_db lev (__init__ None) [PyStr (py "dnb")] =
    if bool_decide (py "dnb" ∈ blocked_keys) then []
    else [_normalize_genre_name latin1_db (py "drum and bass")].
Proof.
  assert (H1 : dict_get (known_genres (__init__ None)) (py "dnb") =
               Some (py "drum and bass")) by (vm_compute; reflexivity).
  split; [exact H1|].
  exact (taxonomy_key_alone latin1_db lev _ _ H1).
Defined.

Lemma input_case_is_irrelevant_witness :
  Forall2 (same_lower latin1_db)
    [PyStr (py "Indie ROCK"); PyNone] [PyStr (py "indie rock"); PyInt 3] /\
  extract_genres latin1_db lev (__init__ None)
    [PyStr (py "Indie ROCK"); PyNone] =
  extract_genres latin1_db lev (__init__ None)
    [PyStr (py "indie rock"); PyInt 3].
Proof.
  assert (H1 : Forall2 (same_lower latin1_db)
                 [PyStr (py "Indie ROCK"); PyNone]
                 [PyStr (py "indie rock"); PyInt 3]).
  { constructor; [vm_compute; reflexivity|].
    constructor; [exact I|constructor]. }
  split; [exact H1|].
  exact (input_case_is_irrelevant latin1_db lev (__init__ None) _ _ H1).
Defined.

Lemma scorer_only_for_unknown_tags_witness :
  extract_genres latin1_db lev (__init__ None)
    (tags_of ["rock"; "Jazz"; "90s"]%string) =
  extract_genres latin1_db (fun _ _ => 100%Z) (__init__ None)
    (tags_of ["rock"; "Jazz"; "90s"]%string).
Proof.
  apply (scorer_only_for_unknown_tags latin1_db lev (fun _ _ => 100%Z)
           (__init__ None) (tags_of ["rock"; "Jazz"; "90s"]%string)).
  intros t k Ht Hk _. exfalso.
  assert (Hf : _filter_non_genres latin1_db (__init__ None)
                 (_clean_tags latin1_db (__init__ None)
                    (tags_of ["rock"; "Jazz"; "90s"]%string)) =
               [py "rock"; py "jazz"]) by (vm_compute; reflexivity).
  rewrite Hf in Ht.
  apply elem_of_cons in Ht as [->|Ht];
    [vm_compute in Hk; discriminate Hk|].
  apply elem_of_cons in Ht as [->|Ht];
    [vm_compute in Hk; discriminate Hk|].
  by apply elem_of_nil in Ht.
Defined.

Lemma shape_classification_of_cleaned_witness :
  py "indie folk" ∈
    _clean_tags latin1_db (__init__ None) (tags_of ["Indie Folk!"]%string) /\
  _character_based_classification (py "indie folk") =
    (len (py "indie folk") <=? 20)%Z &&
    ((split_count (py "indie folk") <=? 2)%nat ||
     (0 <? count_char 45%N (py "indie folk"))%nat).
Proof.
  assert (H1 : py "indie folk" ∈
                 _clean_tags latin1_db (__init__ None)
                   (tags_of ["Indie Folk!"]%string))
    by (apply (bool_decide_unpack _); vm_compute; exact I).
  split; [exact H1|].
  exact (shape_classification_of_cleaned latin1_db (__init__ None) _ _ H1).
Defined.
